(** * django_vite: asset loader of the template tags

    A shallow embedding of [django_vite/templatetags/django_vite.py]:
    the manifest and configuration records, the singleton loader with its
    three dictionaries, and the tag generators, followed by the properties
    of the loader that the specification states. *)

From Stdlib Require Import Ascii.
From stdpp Require Import gmap strings list pretty.

Set Default Proof Using "Type".
#[local] Set Warnings "-register-all".
#[local] Set Warnings "-clear-no-such-hyp".

(** ** Python values the module works with *)

(** The exceptions the module raises or lets escape. *)
Inductive exn :=
| RuntimeError (msg : string)
| TypeError (msg : string)
| KeyError (key : string)
| IndexError (msg : string)
| NameError (name : string)
| OSError (msg : string).

(** The result of running a piece of the module: a value, an exception,
    or no answer within the recursion budget of the model. *)
Inductive outcome (A : Type) :=
| Ok (a : A)
| Raise (e : exn)
| OutOfFuel.
Arguments Ok {A} a.
Arguments Raise {A} e.
Arguments OutOfFuel {A}.

Definition is_raise {A} (o : outcome A) : bool :=
  match o with Raise _ => true | _ => false end.

(** Characters that a string literal cannot hold here. *)
Definition dquote : string := String "034"%char EmptyString.
Definition squote : string := String "039"%char EmptyString.
Definition newline : string := String "010"%char EmptyString.

(** [needle in hay] on [str]. *)
Fixpoint str_in (needle hay : string) : bool :=
  String.prefix needle hay ||
  match hay with
  | EmptyString => false
  | String _ hay' => str_in needle hay'
  end.

(** [s[-1]]: the last character, [IndexError] on the empty string. *)
Fixpoint last_char (s : string) : option ascii :=
  match s with
  | EmptyString => None
  | String c EmptyString => Some c
  | String _ s' => last_char s'
  end.

Definition str_getitem_last (s : string) : outcome ascii :=
  match last_char s with
  | Some c => Ok c
  | None => Raise (IndexError "string index out of range")
  end.

(** [sep.join(parts)]. *)
Definition join (sep : string) (parts : list string) : string :=
  String.concat sep parts.

(** *** Dictionaries

    A [dict] keeps its keys in insertion order, each key once: assigning
    to a key that is present replaces the value where the key stands. *)
Section Dict.
Context {V : Type}.

Definition dict := list (string * V).

Fixpoint dict_get (k : string) (d : dict) : option V :=
  match d with
  | [] => None
  | (k', v) :: d' => if decide (k = k') then Some v else dict_get k d'
  end.

Fixpoint dict_set (k : string) (v : V) (d : dict) : dict :=
  match d with
  | [] => [(k, v)]
  | (k', v') :: d' =>
      if decide (k = k') then (k', v) :: d' else (k', v') :: dict_set k v d'
  end.

(** [{**d, **more}], also [dict(pairs)] from the empty dictionary. *)
Definition dict_update (d : dict) (more : list (string * V)) : dict :=
  foldl (fun acc kv => dict_set kv.1 kv.2 acc) d more.

Definition dict_keys (d : dict) : list string := d.*1.

(** [d[k]]. *)
Definition dict_getitem (k : string) (d : dict) : outcome V :=
  match dict_get k d with
  | Some v => Ok v
  | None => Raise (KeyError k)
  end.
End Dict.
Arguments dict V : clear implicits.

(** ** Names in the module's scope

    The class statements run when the module is imported; a default value
    in a class body is an expression evaluated then, in the module's
    globals and the builtins. *)
Module Scope.

Inductive value :=
| VNone
| VBool (b : bool)
| VStr (s : string)
| VInt (n : Z)
| VList (l : list value)
| VObject (name : string).

Inductive expr :=
| EName (id : string)
| EStr (s : string)
| EInt (n : Z)
| EList (items : list expr).

(** The builtin constants an identifier can denote. *)
Definition builtins (id : string) : option value :=
  if decide (id = "True") then Some (VBool true)
  else if decide (id = "False") then Some (VBool false)
  else if decide (id = "None") then Some VNone
  else None.

(** The names bound by the import statements at the top of the module
    (lines 1 to 10), which is all that is bound when the first class
    statement runs. *)
Definition module_globals : list string :=
  [ "json"; "Path"; "Dict"; "List"; "NamedTuple"; "Optional"; "Type";
    "Union"; "urljoin"; "template"; "settings"; "mark_safe"; "register" ].

Definition lookup_name (id : string) : outcome value :=
  if decide (id ∈ module_globals) then Ok (VObject id)
  else match builtins id with
       | Some v => Ok v
       | None => Raise (NameError id)
       end.

Definition fmap_outcome {A B} (f : A -> B) (o : outcome A) : outcome B :=
  match o with
  | Ok a => Ok (f a)
  | Raise x => Raise x
  | OutOfFuel => OutOfFuel
  end.

Definition cons_outcome {A} (o : outcome A) (os : outcome (list A))
  : outcome (list A) :=
  match o with
  | Ok v => fmap_outcome (cons v) os
  | Raise x => Raise x
  | OutOfFuel => OutOfFuel
  end.

Fixpoint eval (e : expr) : outcome value :=
  match e with
  | EName id => lookup_name id
  | EStr s => Ok (VStr s)
  | EInt n => Ok (VInt n)
  | EList items =>
      fmap_outcome VList
        ((fix go (es : list expr) : outcome (list value) :=
            match es with
            | [] => Ok []
            | e :: es' => cons_outcome (eval e) (go es')
            end) items)
  end.

(** The fields of [class DjangoViteManifest(NamedTuple)] that carry a
    default, with the default as it is written (lines 20 to 22). *)
Definition DjangoViteManifest_defaults : list (string * expr) :=
  [ ("isEntry", EName "false");
    ("css", EList []);
    ("imports", EList []) ].

(** Running a class body: the defaults are evaluated in order; the first
    exception ends the class statement. *)
Fixpoint class_body (fields : list (string * expr))
  : outcome (list (string * value)) :=
  match fields with
  | [] => Ok []
  | (f, e) :: rest =>
      cons_outcome (fmap_outcome (pair f) (eval e)) (class_body rest)
  end.

(** The default the constructor uses for a field that the keyword
    arguments leave out. *)
Definition field_default (f : string) : outcome value :=
  match class_body DjangoViteManifest_defaults with
  | Ok vs => dict_getitem f vs
  | Raise x => Raise x
  | OutOfFuel => OutOfFuel
  end.

End Scope.

(** ** Data model *)

(** A value of type [Union[Path, str]]: the same text either as a plain
    string or wrapped in a [pathlib.Path]. *)
Inductive pathlike :=
| StrPath (s : string)
| PurePath (s : string).

(** [str(p)], also the name [open(p)] looks up. *)
Definition fspath (p : pathlike) : string :=
  match p with StrPath s | PurePath s => s end.

(** Truth value: a [str] is true when it is not empty, a [Path] always. *)
Definition pathlike_truthy (p : pathlike) : bool :=
  match p with
  | StrPath s => if decide (s = "") then false else true
  | PurePath _ => true
  end.

(** An entry for a file inside the manifest.  The loader below works on
    entries as records of this type, with every field given; how the class
    statement itself comes by its defaults is the matter of [Scope]. *)
Record DjangoViteManifest := {
  file : string;
  src : string;
  isEntry : option bool;
  css : list string;
  imports : list string;
}.

(** The configuration structure, with the defaults of the class. *)
Record DjangoViteConfig := {
  assets_path : pathlike;
  dev_mode : bool;
  dev_server_protocol : string;
  dev_server_host : string;
  dev_server_port : Z;
  ws_client_url : string;
  static_url_prefix : string;
  legacy_polyfills_motif : string;
  manifest_path : pathlike;
}.

Definition DjangoViteConfig_new (assets : pathlike) : DjangoViteConfig := {|
  assets_path := assets;
  dev_mode := false;
  dev_server_protocol := "http";
  dev_server_host := "localhost";
  dev_server_port := 3000;
  ws_client_url := "@vite/client";
  static_url_prefix := "";
  legacy_polyfills_motif := "legacy-polyfills";
  manifest_path := StrPath "";
|}.

(** [django.conf.settings], as far as the module reads it.  [STATIC_ROOT]
    is [None] until the project sets it.  A [STATIC_URL] that is [None]
    is the empty string here: [urljoin] returns the reference for both. *)
Record settings := {
  STATIC_URL : string;
  STATIC_ROOT : option string;
}.

(** ** The libraries the module calls

    [urllib.parse.urljoin] and [pathlib.Path] are taken as given.  Of
    [urljoin] the two early returns it starts with are used: an empty base
    gives the reference back, an empty reference gives the base back.
    [Path s] is the text of [Path(s)], [truediv p s] the text of
    [Path(p) / s]. *)
Class Host := {
  urljoin : string -> string -> string;
  urljoin_no_base : forall url, urljoin "" url = url;
  urljoin_no_url : forall base, urljoin base "" = base;
  Path : string -> string;
  truediv : string -> string -> string;
}.

(** An instance to run the model on.  Besides the two early returns, the
    base is split into its origin (scheme and authority, when it has the
    form scheme://authority...) and its path; a reference that starts with
    a slash replaces the path, any other is put after the path cut behind
    its last slash.  A path is extended by a slash and the new part.  This
    is what the libraries do for a reference without scheme, query,
    fragment or dot segments and a normalised base. *)
Fixpoint cut_after_last_slash (s : string) : string :=
  match s with
  | EmptyString => EmptyString
  | String c s' =>
      if str_in "/" s' then String c (cut_after_last_slash s')
      else if decide (c = "/"%char) then String c EmptyString
      else EmptyString
  end.

Fixpoint split_at_slash (s : string) : string * string :=
  match s with
  | EmptyString => (EmptyString, EmptyString)
  | String c s' =>
      if decide (c = "/"%char) then (EmptyString, s)
      else let r := split_at_slash s' in (String c r.1, r.2)
  end.

Fixpoint split_origin (s : string) : string * string :=
  match s with
  | EmptyString => (EmptyString, EmptyString)
  | String c s' =>
      if String.prefix "://" s then
        let r := split_at_slash (String.substring 3 (String.length s) s) in
        ("://" +:+ r.1, r.2)
      else if str_in "://" s' then
        let r := split_origin s' in (String c r.1, r.2)
      else (EmptyString, s)
  end.

Definition plain_urljoin (base url : string) : string :=
  if decide (base = "") then url
  else if decide (url = "") then base
  else
    let r := split_origin base in
    if String.prefix "/" url then r.1 +:+ url
    else if decide (r.2 = "") then r.1 +:+ "/" +:+ url
    else r.1 +:+ cut_after_last_slash r.2 +:+ url.

Definition plain_truediv (p s : string) : string :=
  if decide (s = "") then p else p +:+ "/" +:+ s.

#[export] Program Instance plain_host : Host := {|
  urljoin := plain_urljoin;
  Path := fun s => s;
  truediv := plain_truediv;
|}.
Next Obligation. intros url. unfold plain_urljoin. by case_decide. Qed.
Next Obligation.
  intros base. unfold plain_urljoin. repeat case_decide; congruence.
Qed.

(** ** The process: settings, disk and the loader singleton *)

(** What the [try] block of [_parse_manifest] makes of a file: the entries
    of the document in order, or the exception that opening, reading,
    decoding or building the entries raises. *)
Inductive disk_file :=
| ManifestJson (items : list (string * DjangoViteManifest))
| Broken (error : exn).

Record world := {
  django_settings : settings;
  disk : gmap string disk_file;
  (** the names passed to [open], oldest first *)
  opened : list string;
  _configs : gmap string DjangoViteConfig;
  _manifests : gmap string (dict DjangoViteManifest);
  _static_urls : gmap string string;
}.

Definition set_manifests (f : gmap string (dict DjangoViteManifest) ->
                              gmap string (dict DjangoViteManifest))
    (w : world) : world :=
  {| django_settings := django_settings w; disk := disk w;
     opened := opened w; _configs := _configs w;
     _manifests := f (_manifests w); _static_urls := _static_urls w |}.

Definition set_static_urls (f : gmap string string -> gmap string string)
    (w : world) : world :=
  {| django_settings := django_settings w; disk := disk w;
     opened := opened w; _configs := _configs w;
     _manifests := _manifests w; _static_urls := f (_static_urls w) |}.

Definition log_open (p : string) (w : world) : world :=
  {| django_settings := django_settings w; disk := disk w;
     opened := opened w ++ [p]; _configs := _configs w;
     _manifests := _manifests w; _static_urls := _static_urls w |}.

(** *** Computations on the process *)

Definition M (A : Type) : Type := world -> outcome A * world.

Definition ret {A} (a : A) : M A := fun w => (Ok a, w).
Definition raise {A} (e : exn) : M A := fun w => (Raise e, w).
Definition out_of_fuel {A} : M A := fun w => (OutOfFuel, w).
Definition lift {A} (o : outcome A) : M A := fun w => (o, w).
Definition gets {A} (f : world -> A) : M A := fun w => (Ok (f w), w).
Definition modify (f : world -> world) : M unit := fun w => (Ok tt, f w).

Definition bind {A B} (m : M A) (k : A -> M B) : M B :=
  fun w =>
    match m w with
    | (Ok a, w') => k a w'
    | (Raise e, w') => (Raise e, w')
    | (OutOfFuel, w') => (OutOfFuel, w')
    end.

Notation "x <- m ;; k" := (bind m (fun x => k))
  (at level 100, m at next level, right associativity).
Notation "m ;;; k" := (bind m (fun _ => k))
  (at level 100, right associativity).

(** [try: body except Exception as error: handler(error)]. *)
Definition try_except {A} (body : M A) (handler : exn -> M A) : M A :=
  fun w =>
    match body w with
    | (Raise e, w') => handler e w'
    | r => r
    end.

(** A [for] loop that carries an accumulator through its body. *)
Fixpoint for_each {A S} (xs : list A) (body : A -> S -> M S) (acc : S)
  : M S :=
  match xs with
  | [] => ret acc
  | x :: xs' => acc' <- body x acc ;; for_each xs' body acc'
  end.

(** [str(error)]. *)
Definition str_of_exn (e : exn) : string :=
  match e with
  | RuntimeError msg | TypeError msg | IndexError msg | OSError msg => msg
  | KeyError key => squote +:+ key +:+ squote
  | NameError name => "name " +:+ squote +:+ name +:+ squote +:+ " is not defined"
  end.

(** ** The loader *)

Section Loader.
Context `{Host}.

(** *** [DjangoViteConfig] methods *)

(** The property [static_root].  [Path(settings.STATIC_ROOT)] takes a
    string; for [None] it raises a [TypeError], whose text is that of
    one version of the library and is used by no property. *)
Definition static_root (s : settings) (config : DjangoViteConfig)
  : outcome pathlike :=
  if dev_mode config then Ok (assets_path config)
  else
    match STATIC_ROOT s with
    | Some root =>
        Ok (PurePath (truediv (Path root) (static_url_prefix config)))
    | None =>
        Raise (TypeError
          "expected str, bytes or os.PathLike object, not NoneType")
    end.

(** [left / right] for [left] a [Path] or a [str] and [right] a [str]:
    two strings have no such operator. *)
Definition pathlike_truediv (left : pathlike) (right : string)
  : outcome pathlike :=
  match left with
  | PurePath p => Ok (PurePath (truediv p right))
  | StrPath _ =>
      Raise (TypeError "unsupported operand type(s) for /: 'str' and 'str'")
  end.

Definition get_computed_manifest_path (s : settings)
    (config : DjangoViteConfig) : outcome pathlike :=
  if pathlike_truthy (manifest_path config) then Ok (manifest_path config)
  else
    match static_root s config with
    | Ok root => pathlike_truediv root "manifest.json"
    | Raise e => Raise e
    | OutOfFuel => OutOfFuel
    end.

(** *** Tag rendering *)

Definition render_attr (kv : string * string) : string :=
  kv.1 +:+ "=" +:+ dquote +:+ kv.2 +:+ dquote.

Definition _generate_script_tag (src : string) (attrs : dict string)
  : string :=
  let attrs_str := join " " (render_attr <$> attrs) in
  "<script " +:+ attrs_str +:+ " src=" +:+ dquote +:+ src +:+ dquote
    +:+ "></script>".

Definition _generate_stylesheet_tag (href : string) : string :=
  "<link rel=" +:+ dquote +:+ "stylesheet" +:+ dquote +:+ " href="
    +:+ dquote +:+ href +:+ dquote +:+ " />".

(** The positional arguments a call of [_generate_vite_server_url]
    passes.  The function has the parameters [path], [static_url] and
    [config]; lines 138 and 513 pass all three, line 231 passes two. *)
Inductive server_url_args :=
| ServerUrlArgs3 (a1 a2 : string) (a3 : DjangoViteConfig)
| ServerUrlArgs2 (a1 : string) (a2 : DjangoViteConfig).

Definition _generate_vite_server_url (args : server_url_args)
  : outcome string :=
  match args with
  | ServerUrlArgs3 path static_url config =>
      Ok (urljoin
            (dev_server_protocol config +:+ "://"
               +:+ dev_server_host config +:+ ":"
               +:+ pretty (dev_server_port config))
            (urljoin static_url path))
  | ServerUrlArgs2 _ _ =>
      Raise (TypeError
        "_generate_vite_server_url() missing 1 required positional argument: 'config'")
  end.

(** *** Configurations, manifests and static URLs *)

Definition _get_config (config_key : string) : M DjangoViteConfig :=
  configs <- gets _configs ;;
  match configs !! config_key with
  | None =>
      raise (RuntimeError ("Cannot find " +:+ dquote +:+ config_key
                             +:+ dquote +:+ " configuration"))
  | Some config => ret config
  end.

Definition computed_manifest_path (config : DjangoViteConfig)
  : M pathlike :=
  s <- gets django_settings ;;
  lift (get_computed_manifest_path s config).

(** [open(p)], reading and decoding, and the dictionary of entries. *)
Definition load_manifest_file (p : pathlike)
  : M (dict DjangoViteManifest) :=
  modify (log_open (fspath p)) ;;;
  files <- gets disk ;;
  match files !! fspath p with
  | None =>
      raise (OSError ("[Errno 2] No such file or directory: " +:+ squote
                        +:+ fspath p +:+ squote))
  | Some (Broken error) => raise error
  | Some (ManifestJson items) => ret (dict_update [] items)
  end.

Definition _parse_manifest (config_key : string)
  : M (dict DjangoViteManifest) :=
  config <- _get_config config_key ;;
  try_except
    (p <- computed_manifest_path config ;;
     load_manifest_file p)
    (fun error =>
       p <- computed_manifest_path config ;;
       raise (RuntimeError ("Cannot read Vite manifest file at "
                              +:+ fspath p +:+ " : " +:+ str_of_exn error))).

Definition _get_manifest (config_key : string)
  : M (dict DjangoViteManifest) :=
  manifests <- gets _manifests ;;
  (match manifests !! config_key with
   | None =>
       manifest <- _parse_manifest config_key ;;
       modify (set_manifests <[config_key := manifest]>)
   | Some _ => ret tt
   end) ;;;
  manifests <- gets _manifests ;;
  match manifests !! config_key with
  | Some manifest => ret manifest
  | None => raise (KeyError config_key)
  end.

Definition _get_static_url (config_key : string) : M string :=
  static_urls <- gets _static_urls ;;
  (match static_urls !! config_key with
   | None =>
       config <- _get_config config_key ;;
       s <- gets django_settings ;;
       let static_url := urljoin (STATIC_URL s) (static_url_prefix config) in
       c <- lift (str_getitem_last static_url) ;;
       modify (set_static_urls
                 <[config_key := if decide (c = "/"%char) then static_url
                                 else static_url +:+ "/"]>)
   | Some _ => ret tt
   end) ;;;
  static_urls <- gets _static_urls ;;
  match static_urls !! config_key with
  | Some static_url => ret static_url
  | None => raise (KeyError config_key)
  end.

(** *** Generators *)

(** The positional arguments a call of [_generate_css_files_of_asset]
    passes after [self].  The method has the parameters [path],
    [config_key] and [already_processed]; line 156 passes all three, the
    call of the method by itself at line 193 passes two. *)
Inductive css_args :=
| CssArgs3 (a1 a2 : string) (a3 : list string)
| CssArgs2 (a1 : string) (a2 : list string).

(** The second loop of the method: a tag for each path that is not in
    [already_processed], and every path appended to that list. *)
Definition css_loop (static_url : string) (css_paths : list string)
    (state : list string * list string) : list string * list string :=
  foldl (fun st css_path =>
           ((if decide (css_path ∈ st.2) then st.1
             else st.1 ++ [_generate_stylesheet_tag
                             (urljoin static_url css_path)]),
            st.2 ++ [css_path]))
        state css_paths.

(** The method returns its tags; [already_processed] is a list object
    the caller shares, so the list as the call leaves it is returned
    with them. *)
Fixpoint _generate_css_files_of_asset (fuel : nat) (args : css_args)
  : M (list string * list string) :=
  match fuel with
  | 0 => out_of_fuel
  | S fuel' =>
      match args with
      | CssArgs2 _ _ =>
          raise (TypeError
            "_generate_css_files_of_asset() missing 1 required positional argument: 'already_processed'")
      | CssArgs3 path config_key already_processed =>
          static_url <- _get_static_url config_key ;;
          manifest <- _get_manifest config_key ;;
          manifest_entry <- lift (dict_getitem path manifest) ;;
          st <- for_each (imports manifest_entry)
                  (fun import_path st =>
                     r <- _generate_css_files_of_asset fuel'
                            (CssArgs2 import_path st.2) ;;
                     ret (st.1 ++ r.1, r.2))
                  ([], already_processed) ;;
          ret (css_loop static_url (css manifest_entry) st)
      end
  end.

Definition not_in_manifest (path : string) (config : DjangoViteConfig)
  : M string :=
  p <- computed_manifest_path config ;;
  ret ("Cannot find " +:+ path +:+ " in Vite manifest at " +:+ fspath p).

Definition generate_vite_asset (fuel : nat) (path config_key : string)
    (kwargs : dict string) : M string :=
  config <- _get_config config_key ;;
  static_url <- _get_static_url config_key ;;
  if dev_mode config then
    url <- lift (_generate_vite_server_url
                   (ServerUrlArgs3 path static_url config)) ;;
    ret (_generate_script_tag url [("type", "module")])
  else
    manifest <- _get_manifest config_key ;;
    match dict_get path manifest with
    | None => msg <- not_in_manifest path config ;; raise (RuntimeError msg)
    | Some _ =>
        let scripts_attrs :=
          dict_update [("type", "module"); ("crossorigin", "")] kwargs in
        r <- _generate_css_files_of_asset fuel
               (CssArgs3 path config_key []) ;;
        entry <- lift (dict_getitem path manifest) ;;
        ret (join newline
               (r.1 ++ [_generate_script_tag
                          (urljoin static_url (file entry)) scripts_attrs]))
    end.

Definition generate_vite_asset_url (path config_key : string) : M string :=
  config <- _get_config config_key ;;
  static_url <- _get_static_url config_key ;;
  if dev_mode config then
    lift (_generate_vite_server_url (ServerUrlArgs2 path config))
  else
    manifest <- _get_manifest config_key ;;
    match dict_get path manifest with
    | None => msg <- not_in_manifest path config ;; raise (RuntimeError msg)
    | Some entry => ret (urljoin static_url (file entry))
    end.

(** The loop over [manifest.items()] with its [return]. *)
Fixpoint polyfills_scan (motif static_url : string)
    (scripts_attrs : dict string)
    (items : list (string * DjangoViteManifest)) : option string :=
  match items with
  | [] => None
  | (path, content) :: rest =>
      if str_in motif path then
        Some (_generate_script_tag (urljoin static_url (file content))
                scripts_attrs)
      else polyfills_scan motif static_url scripts_attrs rest
  end.

Definition generate_vite_legacy_polyfills (config_key : string)
    (kwargs : dict string) : M string :=
  config <- _get_config config_key ;;
  manifest <- _get_manifest config_key ;;
  static_url <- _get_static_url config_key ;;
  if dev_mode config then ret ""
  else
    let scripts_attrs :=
      dict_update [("nomodule", ""); ("crossorigin", "")] kwargs in
    match polyfills_scan (legacy_polyfills_motif config) static_url
            scripts_attrs manifest with
    | Some tag => ret tag
    | None =>
        p <- computed_manifest_path config ;;
        raise (RuntimeError
                 ("Vite legacy polyfills not found in manifest at "
                    +:+ fspath p))
    end.

Definition generate_vite_legacy_asset (path config_key : string)
    (kwargs : dict string) : M string :=
  config <- _get_config config_key ;;
  static_url <- _get_static_url config_key ;;
  if dev_mode config then ret ""
  else
    manifest <- _get_manifest config_key ;;
    match dict_get path manifest with
    | None => msg <- not_in_manifest path config ;; raise (RuntimeError msg)
    | Some entry =>
        let scripts_attrs :=
          dict_update [("nomodule", ""); ("crossorigin", "")] kwargs in
        ret (_generate_script_tag (urljoin static_url (file entry))
               scripts_attrs)
    end.

Definition generate_vite_ws_client (config_key : string) : M string :=
  config <- _get_config config_key ;;
  static_url <- _get_static_url config_key ;;
  if negb (dev_mode config) then ret ""
  else
    url <- lift (_generate_vite_server_url
                   (ServerUrlArgs3 (ws_client_url config) static_url
                      config)) ;;
    ret (_generate_script_tag url [("type", "module")]).

End Loader.

(** The process right after [instance()] has built the singleton from the
    settings: the configurations registered, both caches empty, nothing
    opened yet. *)
Definition instance (s : settings) (files : gmap string disk_file)
    (configs : gmap string DjangoViteConfig) : world :=
  {| django_settings := s; disk := files; opened := [];
     _configs := configs; _manifests := ∅; _static_urls := ∅ |}.

(** ** Notions the properties are stated with *)

(** *** What a call leaves of the process

    No method writes the settings, the disk or the configurations; the two
    caches only gain entries and the list of opened files only grows. *)

Record extends (w w' : world) : Prop := {
  ext_settings : django_settings w' = django_settings w;
  ext_disk : disk w' = disk w;
  ext_configs : _configs w' = _configs w;
  ext_manifests : _manifests w ⊆ _manifests w';
  ext_static_urls : _static_urls w ⊆ _static_urls w';
  ext_opened : opened w `prefix_of` opened w';
}.

Definition monotone {A} (m : M A) : Prop := forall w, extends w (m w).2.


Section Notions.
Context `{Host}.

(** The message of the [RuntimeError] that [_parse_manifest] raises. *)
Definition cannot_read (p : pathlike) (error : exn) : exn :=
  RuntimeError ("Cannot read Vite manifest file at " +:+ fspath p
                  +:+ " : " +:+ str_of_exn error).

Definition no_such_file (p : pathlike) : exn :=
  OSError ("[Errno 2] No such file or directory: " +:+ squote
             +:+ fspath p +:+ squote).

(** The URL [_get_static_url] stores: the joined URL, with a slash put
    behind it when its last character [c] is not one. *)
Definition with_trailing_slash (static_url : string) (c : ascii) : string :=
  if decide (c = "/"%char) then static_url else static_url +:+ "/".

(** The paths of a list without their repetitions: each path stays where
    it occurs first. *)
Fixpoint first_occurrences (paths : list string) : list string :=
  match paths with
  | [] => []
  | c :: rest => c :: filter (fun c' => c' <> c) (first_occurrences rest)
  end.

(** *** Histories of calls *)

(** A call on the loader, and the process as the call leaves it, whether
    it returns or raises. *)
Inductive call :=
| Call_get_manifest (config_key : string)
| Call_get_static_url (config_key : string)
| Call_generate_vite_asset (fuel : nat) (path config_key : string)
    (kwargs : dict string)
| Call_generate_vite_asset_url (path config_key : string)
| Call_generate_vite_legacy_polyfills (config_key : string)
    (kwargs : dict string)
| Call_generate_vite_legacy_asset (path config_key : string)
    (kwargs : dict string)
| Call_generate_vite_ws_client (config_key : string).

Definition after (c : call) (w : world) : world :=
  match c with
  | Call_get_manifest key => (_get_manifest key w).2
  | Call_get_static_url key => (_get_static_url key w).2
  | Call_generate_vite_asset fuel path key kwargs =>
      (generate_vite_asset fuel path key kwargs w).2
  | Call_generate_vite_asset_url path key =>
      (generate_vite_asset_url path key w).2
  | Call_generate_vite_legacy_polyfills key kwargs =>
      (generate_vite_legacy_polyfills key kwargs w).2
  | Call_generate_vite_legacy_asset path key kwargs =>
      (generate_vite_legacy_asset path key kwargs w).2
  | Call_generate_vite_ws_client key => (generate_vite_ws_client key w).2
  end.

Definition after_all (cs : list call) (w : world) : world :=
  foldl (fun w c => after c w) w cs.

End Notions.

(** Something outside the process puts a file on the disk. *)
Definition write_file (p : string) (f : disk_file) (w : world) : world :=
  {| django_settings := django_settings w; disk := <[p := f]> (disk w);
     opened := opened w; _configs := _configs w;
     _manifests := _manifests w; _static_urls := _static_urls w |}.


(** *** Trailing slashes *)

Definition ends_with_slash (s : string) : bool :=
  bool_decide (last_char s = Some "/"%char).

(** [s[:-1]]. *)
Fixpoint drop_last (s : string) : string :=
  match s with
  | EmptyString => EmptyString
  | String c s' =>
      match s' with
      | EmptyString => EmptyString
      | String _ _ => String c (drop_last s')
      end
  end.

(** The string ends with a slash and the character before it, if there is
    one, is not a slash. *)
Definition exactly_one_trailing_slash (s : string) : bool :=
  ends_with_slash s && negb (ends_with_slash (drop_last s)).

(** A process with one configuration, named default, that has the defaults
    of the class, and with the given base URL for static files. *)
Definition default_process (static_url : string)
    (files : gmap string disk_file) : world :=
  instance {| STATIC_URL := static_url;
              STATIC_ROOT := Some "/srv/static" |}
    files {[ "default" := DjangoViteConfig_new (StrPath "assets") ]}.

(** *** A production process to run the generators on

    The manifest of two entries that the specification uses: entry a
    imports entry b, and both list the stylesheet a.css. *)
Definition entry_a : DjangoViteManifest :=
  {| file := "a.123.js"; src := "a"; isEntry := Some true;
     css := ["a.css"]; imports := ["b"] |}.

Definition entry_b : DjangoViteManifest :=
  {| file := "b.456.js"; src := "b"; isEntry := Some false;
     css := ["a.css"; "b.css"]; imports := [] |}.

Definition manifest_ab : list (string * DjangoViteManifest) :=
  [("a", entry_a); ("b", entry_b)].

Definition production_process : world :=
  default_process "/static/"
    {[ "/srv/static/manifest.json" := ManifestJson manifest_ab ]}.

(** The same process once the static URL and the manifest are cached. *)
Definition production_process_warm : world :=
  (_get_manifest (H:=plain_host) "default"
     (_get_static_url (H:=plain_host) "default" production_process).2).2.

(** A production process whose only entry names a stylesheet twice. *)
Definition entry_repeated : DjangoViteManifest :=
  {| file := "c.789.js"; src := "c"; isEntry := Some true;
     css := ["x.css"; "y.css"; "x.css"; "z.css"]; imports := [] |}.

Definition repeated_css_process : world :=
  default_process "/static/"
    {[ "/srv/static/manifest.json" := ManifestJson [("c", entry_repeated)] ]}.

Definition repeated_css_process_warm : world :=
  (_get_manifest (H:=plain_host) "default"
     (_get_static_url (H:=plain_host) "default" repeated_css_process).2).2.


(** A production process whose manifest holds the polyfills of the legacy
    plugin behind the entry main. *)
Definition entry_main : DjangoViteManifest :=
  {| file := "main.111.js"; src := "main"; isEntry := Some true;
     css := ["main.css"]; imports := [] |}.

Definition entry_polyfills : DjangoViteManifest :=
  {| file := "polyfills-legacy.789.js"; src := "legacy-polyfills-abc";
     isEntry := Some true; css := []; imports := [] |}.

Definition manifest_legacy : list (string * DjangoViteManifest) :=
  [("main", entry_main); ("legacy-polyfills-abc", entry_polyfills)].

Definition legacy_process : world :=
  default_process "/static/"
    {[ "/srv/static/manifest.json" := ManifestJson manifest_legacy ]}.

Definition legacy_process_warm : world :=
  (_get_static_url (H:=plain_host) "default"
     (_get_manifest (H:=plain_host) "default" legacy_process).2).2.


(** *** Termination *)

(** A computation answers when it returns or raises within its budget. *)
Definition answers {A} (m : M A) : Prop :=
  forall w, (m w).1 <> OutOfFuel.

(** The imports of a manifest form no cycle: the keys can be ranked so
    that every import of an entry ranks below the entry. *)
Definition acyclic (manifest : dict DjangoViteManifest) : Prop :=
  exists rank : string -> nat,
    forall k e i,
      dict_get k manifest = Some e -> i ∈ imports e -> rank i < rank k.


(** *** A development process

    One configuration, named default, in development mode with the
    defaults of the class otherwise, and no manifest on the disk. *)
Definition dev_config : DjangoViteConfig := {|
  assets_path := PurePath "assets";
  dev_mode := true;
  dev_server_protocol := "http";
  dev_server_host := "localhost";
  dev_server_port := 3000;
  ws_client_url := "@vite/client";
  static_url_prefix := "";
  legacy_polyfills_motif := "legacy-polyfills";
  manifest_path := StrPath "";
|}.

Definition dev_process : world :=
  instance {| STATIC_URL := "/static/";
              STATIC_ROOT := Some "/srv/static" |}
    ∅ {[ "default" := dev_config ]}.

(** What binding the arguments raises for the two calls that pass one
    argument too few. *)
Definition css_files_missing_argument : exn :=
  TypeError
    "_generate_css_files_of_asset() missing 1 required positional argument: 'already_processed'".

Definition server_url_missing_argument : exn :=
  TypeError
    "_generate_vite_server_url() missing 1 required positional argument: 'config'".


(** *** Invariants of the caches *)

(** A computation keeps an invariant of the process, whether it returns
    or raises. *)
Definition preserves (I : world -> Prop) {A} (m : M A) : Prop :=
  forall w, I w -> I (m w).2.

Section CacheInvariants.
Context `{Host}.

(** Every cached static URL belongs to a registered configuration and is
    the joined URL of that configuration, with a slash behind it when it
    had none. *)
Definition static_urls_normalised (w : world) : Prop :=
  forall key u,
    _static_urls w !! key = Some u ->
    exists config c,
      _configs w !! key = Some config
      /\ last_char (urljoin (STATIC_URL (django_settings w))
                      (static_url_prefix config)) = Some c
      /\ u = with_trailing_slash
               (urljoin (STATIC_URL (django_settings w))
                  (static_url_prefix config)) c.

(** Every cached manifest belongs to a registered configuration and holds
    the entries of the file at the manifest path of that configuration. *)
Definition manifests_from_disk (w : world) : Prop :=
  forall key m,
    _manifests w !! key = Some m ->
    exists config p items,
      _configs w !! key = Some config
      /\ get_computed_manifest_path (django_settings w) config = Ok p
      /\ disk w !! fspath p = Some (ManifestJson items)
      /\ m = dict_update [] items.

(** Every file that was opened is the manifest of a registered
    configuration. *)
Definition opened_are_manifests (w : world) : Prop :=
  forall name,
    name ∈ opened w ->
    exists key config p,
      _configs w !! key = Some config
      /\ get_computed_manifest_path (django_settings w) config = Ok p
      /\ fspath p = name.

End CacheInvariants.


(** *** Two more production processes

    One whose manifest file holds no entry, and one whose configuration
    has the empty string as the motif of the polyfills. *)
Definition empty_manifest_process : world :=
  default_process "/static/"
    {[ "/srv/static/manifest.json" := ManifestJson [] ]}.

Definition empty_motif_config : DjangoViteConfig := {|
  assets_path := StrPath "assets";
  dev_mode := false;
  dev_server_protocol := "http";
  dev_server_host := "localhost";
  dev_server_port := 3000;
  ws_client_url := "@vite/client";
  static_url_prefix := "";
  legacy_polyfills_motif := "";
  manifest_path := StrPath "/srv/static/manifest.json";
|}.

Definition empty_motif_process : world :=
  instance {| STATIC_URL := "/static/";
              STATIC_ROOT := Some "/srv/static" |}
    {[ "/srv/static/manifest.json" := ManifestJson manifest_ab ]}
    {[ "default" := empty_motif_config ]}.


(** *** A development process whose assets path is a string *)
Definition str_assets_config : DjangoViteConfig := {|
  assets_path := StrPath "assets";
  dev_mode := true;
  dev_server_protocol := "http";
  dev_server_host := "localhost";
  dev_server_port := 3000;
  ws_client_url := "@vite/client";
  static_url_prefix := "";
  legacy_polyfills_motif := "legacy-polyfills";
  manifest_path := StrPath "";
|}.

Definition str_assets_process : world :=
  instance {| STATIC_URL := "/static/";
              STATIC_ROOT := Some "/srv/static" |}
    ∅ {[ "default" := str_assets_config ]}.


(** ** The singleton and the template tags *)

(** The keyword arguments of a call of the class [DjangoViteConfig]: for
    each field whether the dictionary has it, with its value, and the
    other keys of the dictionary, which name no field, in their order. *)
Record config_kwargs := {
  kw_assets_path : option pathlike;
  kw_dev_mode : option bool;
  kw_dev_server_protocol : option string;
  kw_dev_server_host : option string;
  kw_dev_server_port : option Z;
  kw_ws_client_url : option string;
  kw_static_url_prefix : option string;
  kw_legacy_polyfills_motif : option string;
  kw_manifest_path : option pathlike;
  kw_other : list string;
}.

(** The call of the class with keyword arguments: a key that names no
    field is refused first, then a call without the one field that has no
    default; the fields left out take the defaults of the class. *)
Definition DjangoViteConfig_call (kw : config_kwargs)
  : outcome DjangoViteConfig :=
  match kw_other kw with
  | name :: _ =>
      Raise (TypeError ("__new__() got an unexpected keyword argument "
                          +:+ squote +:+ name +:+ squote))
  | [] =>
      match kw_assets_path kw with
      | None =>
          Raise (TypeError
            "__new__() missing 1 required positional argument: 'assets_path'")
      | Some assets =>
          Ok {| assets_path := assets;
                dev_mode := default false (kw_dev_mode kw);
                dev_server_protocol :=
                  default "http" (kw_dev_server_protocol kw);
                dev_server_host :=
                  default "localhost" (kw_dev_server_host kw);
                dev_server_port := default 3000%Z (kw_dev_server_port kw);
                ws_client_url :=
                  default "@vite/client" (kw_ws_client_url kw);
                static_url_prefix := default "" (kw_static_url_prefix kw);
                legacy_polyfills_motif :=
                  default "legacy-polyfills" (kw_legacy_polyfills_motif kw);
                manifest_path :=
                  default (StrPath "") (kw_manifest_path kw) |}
      end
  end.

(** A value of the setting [DJANGO_VITE]: a configuration object, a
    dictionary, or anything else. *)
Inductive config_values :=
| ConfigObject (config : DjangoViteConfig)
| ConfigDict (kw : config_kwargs)
| ConfigOther.

(** The settings that [instance] reads; a setting that is not defined is
    [None]. *)
Record vite_settings := {
  DJANGO_VITE : option (dict config_values);
  DJANGO_VITE_DEV_MODE : option bool;
  DJANGO_VITE_DEV_SERVER_PROTOCOL : option string;
  DJANGO_VITE_DEV_SERVER_HOST : option string;
  DJANGO_VITE_DEV_SERVER_PORT : option Z;
  DJANGO_VITE_WS_CLIENT_URL : option string;
  DJANGO_VITE_ASSETS_PATH : option pathlike;
  DJANGO_VITE_STATIC_URL_PREFIX : option string;
  DJANGO_VITE_MANIFEST_PATH : option pathlike;
  DJANGO_VITE_LEGACY_POLYFILLS_MOTIF : option string;
}.

(** The loader object: its three dictionaries. *)
Record loader := {
  loader_configs : gmap string DjangoViteConfig;
  loader_manifests : gmap string (dict DjangoViteManifest);
  loader_static_urls : gmap string string;
}.

(** The process with the class attribute [_instance], which is [None]
    until [instance] has run. *)
Record process := {
  proc_settings : settings;
  proc_vite : vite_settings;
  proc_disk : gmap string disk_file;
  proc_opened : list string;
  _instance : option loader;
}.

Definition new_loader : loader :=
  {| loader_configs := ∅; loader_manifests := ∅; loader_static_urls := ∅ |}.

Definition register (config_key : string) (config : DjangoViteConfig)
    (l : loader) : loader :=
  {| loader_configs := <[config_key := config]> (loader_configs l);
     loader_manifests := loader_manifests l;
     loader_static_urls := loader_static_urls l |}.

(** The body of the loop over the items of [DJANGO_VITE]: the
    configuration to register for a value, or the exception. *)
Definition read_config_values (config_key : string) (v : config_values)
  : outcome DjangoViteConfig :=
  match v with
  | ConfigObject config => Ok config
  | ConfigDict kw => DjangoViteConfig_call kw
  | ConfigOther =>
      Raise (RuntimeError ("Cannot read configuration for key " +:+ squote
                             +:+ config_key +:+ squote))
  end.

(** The loop: the loader as the loop leaves it, also when it raises. *)
Fixpoint configure (items : list (string * config_values)) (l : loader)
  : outcome unit * loader :=
  match items with
  | [] => (Ok tt, l)
  | (config_key, v) :: rest =>
      match read_config_values config_key v with
      | Ok config => configure rest (register config_key config l)
      | Raise e => (Raise e, l)
      | OutOfFuel => (OutOfFuel, l)
      end
  end.

(** The dictionary that the branch without [DJANGO_VITE] builds from the
    settings that are defined. *)
Definition legacy_kwargs (vs : vite_settings) : config_kwargs :=
  {| kw_assets_path := DJANGO_VITE_ASSETS_PATH vs;
     kw_dev_mode := DJANGO_VITE_DEV_MODE vs;
     kw_dev_server_protocol := DJANGO_VITE_DEV_SERVER_PROTOCOL vs;
     kw_dev_server_host := DJANGO_VITE_DEV_SERVER_HOST vs;
     kw_dev_server_port := DJANGO_VITE_DEV_SERVER_PORT vs;
     kw_ws_client_url := DJANGO_VITE_WS_CLIENT_URL vs;
     kw_static_url_prefix := DJANGO_VITE_STATIC_URL_PREFIX vs;
     kw_legacy_polyfills_motif := DJANGO_VITE_LEGACY_POLYFILLS_MOTIF vs;
     kw_manifest_path := DJANGO_VITE_MANIFEST_PATH vs;
     kw_other := [] |}.

Definition set_instance (l : loader) (p : process) : process :=
  {| proc_settings := proc_settings p; proc_vite := proc_vite p;
     proc_disk := proc_disk p; proc_opened := proc_opened p;
     _instance := Some l |}.

(** The class method [instance].  The new object is assigned to
    [_instance] before it is configured, so it stays there when the
    configuration raises. *)
Definition DjangoViteAssetLoader_instance (p : process)
  : outcome loader * process :=
  match _instance p with
  | Some l => (Ok l, p)
  | None =>
      let r :=
        match DJANGO_VITE (proc_vite p) with
        | Some config => configure config new_loader
        | None =>
            match DjangoViteConfig_call (legacy_kwargs (proc_vite p)) with
            | Ok config => (Ok tt, register "default" config new_loader)
            | Raise e => (Raise e, new_loader)
            | OutOfFuel => (OutOfFuel, new_loader)
            end
        end in
      (match r.1 with
       | Ok _ => Ok r.2
       | Raise e => Raise e
       | OutOfFuel => OutOfFuel
       end, set_instance r.2 p)
  end.

(** The process as a method of the loader object [l] sees it, and the
    process after the method has run. *)
Definition world_of (p : process) (l : loader) : world :=
  {| django_settings := proc_settings p; disk := proc_disk p;
     opened := proc_opened p; _configs := loader_configs l;
     _manifests := loader_manifests l;
     _static_urls := loader_static_urls l |}.

Definition process_of (p : process) (w : world) : process :=
  {| proc_settings := proc_settings p; proc_vite := proc_vite p;
     proc_disk := disk w; proc_opened := opened w;
     _instance := Some {| loader_configs := _configs w;
                          loader_manifests := _manifests w;
                          loader_static_urls := _static_urls w |} |}.

(** A method called on what [instance] returns. *)
Definition on_instance {A} (m : M A) (p : process) : outcome A * process :=
  match DjangoViteAssetLoader_instance p with
  | (Ok l, p1) => ((m (world_of p1 l)).1, process_of p1 (m (world_of p1 l)).2)
  | (Raise e, p1) => (Raise e, p1)
  | (OutOfFuel, p1) => (OutOfFuel, p1)
  end.

Section TemplateTags.
Context `{Host}.

(** The class method [generate_vite_ws_client], which asks for the
    instance twice. *)
Definition DjangoViteAssetLoader_generate_vite_ws_client
    (config_key : string) (p : process) : outcome string * process :=
  match on_instance (_get_config config_key) p with
  | (Ok config, p1) =>
      match on_instance (_get_static_url config_key) p1 with
      | (Ok static_url, p2) =>
          if negb (dev_mode config) then (Ok "", p2)
          else
            match _generate_vite_server_url
                    (ServerUrlArgs3 (ws_client_url config) static_url
                       config) with
            | Ok url => (Ok (_generate_script_tag url [("type", "module")]),
                         p2)
            | Raise e => (Raise e, p2)
            | OutOfFuel => (OutOfFuel, p2)
            end
      | (Raise e, p2) => (Raise e, p2)
      | (OutOfFuel, p2) => (OutOfFuel, p2)
      end
  | (Raise e, p1) => (Raise e, p1)
  | (OutOfFuel, p1) => (OutOfFuel, p1)
  end.

(** The template tags. *)
Definition vite_hmr_client (config : string)
  : process -> outcome string * process :=
  DjangoViteAssetLoader_generate_vite_ws_client config.

Definition vite_asset (fuel : nat) (path config : string)
    (kwargs : dict string) : process -> outcome string * process :=
  on_instance (generate_vite_asset fuel path config kwargs).

Definition vite_asset_url (path config : string)
  : process -> outcome string * process :=
  on_instance (generate_vite_asset_url path config).

Definition vite_legacy_polyfills (config : string) (kwargs : dict string)
  : process -> outcome string * process :=
  on_instance (generate_vite_legacy_polyfills config kwargs).

Definition vite_legacy_asset (path config : string) (kwargs : dict string)
  : process -> outcome string * process :=
  on_instance (generate_vite_legacy_asset path config kwargs).

End TemplateTags.

(** The process when the module is being imported: no instance yet and
    nothing opened. *)
Definition at_import (s : settings) (vs : vite_settings)
    (files : gmap string disk_file) : process :=
  {| proc_settings := s; proc_vite := vs; proc_disk := files;
     proc_opened := []; _instance := None |}.


(** *** Settings to run [instance] on *)

Definition no_kwargs : config_kwargs :=
  {| kw_assets_path := None; kw_dev_mode := None;
     kw_dev_server_protocol := None; kw_dev_server_host := None;
     kw_dev_server_port := None; kw_ws_client_url := None;
     kw_static_url_prefix := None; kw_legacy_polyfills_motif := None;
     kw_manifest_path := None; kw_other := [] |}.

Definition assets_only (assets : pathlike) : config_kwargs :=
  {| kw_assets_path := Some assets; kw_dev_mode := None;
     kw_dev_server_protocol := None; kw_dev_server_host := None;
     kw_dev_server_port := None; kw_ws_client_url := None;
     kw_static_url_prefix := None; kw_legacy_polyfills_motif := None;
     kw_manifest_path := None; kw_other := [] |}.

(** Settings that define [DJANGO_VITE] and none of the older settings. *)
Definition with_DJANGO_VITE (configs : dict config_values) : vite_settings :=
  {| DJANGO_VITE := Some configs;
     DJANGO_VITE_DEV_MODE := None;
     DJANGO_VITE_DEV_SERVER_PROTOCOL := None;
     DJANGO_VITE_DEV_SERVER_HOST := None;
     DJANGO_VITE_DEV_SERVER_PORT := None;
     DJANGO_VITE_WS_CLIENT_URL := None;
     DJANGO_VITE_ASSETS_PATH := None;
     DJANGO_VITE_STATIC_URL_PREFIX := None;
     DJANGO_VITE_MANIFEST_PATH := None;
     DJANGO_VITE_LEGACY_POLYFILLS_MOTIF := None |}.

(** Settings that define none of the settings of the module but, maybe,
    the older assets path and development mode. *)
Definition older_settings (assets : option pathlike) (dev : option bool)
  : vite_settings :=
  {| DJANGO_VITE := None;
     DJANGO_VITE_DEV_MODE := dev;
     DJANGO_VITE_DEV_SERVER_PROTOCOL := None;
     DJANGO_VITE_DEV_SERVER_HOST := None;
     DJANGO_VITE_DEV_SERVER_PORT := None;
     DJANGO_VITE_WS_CLIENT_URL := None;
     DJANGO_VITE_ASSETS_PATH := assets;
     DJANGO_VITE_STATIC_URL_PREFIX := None;
     DJANGO_VITE_MANIFEST_PATH := None;
     DJANGO_VITE_LEGACY_POLYFILLS_MOTIF := None |}.

Definition import_with (vs : vite_settings) : process :=
  at_import {| STATIC_URL := "/static/";
               STATIC_ROOT := Some "/srv/static" |} vs
    {[ "/srv/static/manifest.json" := ManifestJson manifest_ab ]}.

Definition two_configs : dict config_values :=
  [("default", ConfigObject dev_config);
   ("admin", ConfigDict (assets_only (StrPath "assets")))].


Definition broken_configs : dict config_values :=
  [("default", ConfigObject dev_config);
   ("broken", ConfigOther);
   ("admin", ConfigDict (assets_only (StrPath "assets")))].


(** * Properties *)

(** ** Strings *)

Section StringFacts.

Lemma prefix_app (n t : string) : String.prefix n (n +:+ t) = true.
Proof.
  induction n as [|c n IH]; simpl.
  - by destruct t.
  - destruct (ascii_dec c c); [done | congruence].
Qed.

Lemma prefix_inv (n h : string) :
  String.prefix n h = true -> exists t, h = n +:+ t.
Proof.
  revert h. induction n as [|c n IH]; intros h Hp.
  - by exists h.
  - destruct h as [|c' h]; simpl in Hp; [done |].
    destruct (ascii_dec c c') as [->|]; [| done].
    destruct (IH _ Hp) as [t ->]. by exists t.
Qed.

Lemma str_in_cons (n : string) (c : ascii) (h : string) :
  str_in n (String c h) = String.prefix n (String c h) || str_in n h.
Proof. done. Qed.

(** [str_in] decides whether the needle occurs as a substring. *)
Lemma str_in_spec (n h : string) :
  str_in n h = true <-> exists a b, h = a +:+ n +:+ b.
Proof.
  split.
  - induction h as [|c h IH].
    + destruct n; [by exists "", "" | done].
    + rewrite str_in_cons. intros [Hp | Hin]%orb_true_iff.
      * destruct (prefix_inv _ _ Hp) as [t Ht]. by exists "", t.
      * destruct (IH Hin) as (a & b & ->). by exists (String c a), b.
  - intros (a & b & ->). induction a as [|c a IH].
    + change ("" +:+ n +:+ b) with (n +:+ b).
      destruct (n +:+ b) as [|c s] eqn:E.
      * by destruct n.
      * by rewrite str_in_cons, <- E, prefix_app.
    + change (String c a +:+ n +:+ b) with (String c (a +:+ n +:+ b)).
      rewrite str_in_cons, IH. apply orb_true_r.
Qed.

Lemma str_in_middle (a n b : string) : str_in n (a +:+ n +:+ b) = true.
Proof. apply str_in_spec. by exists a, b. Qed.

Lemma append_cons (c : ascii) (s t : string) :
  String c s +:+ t = String c (s +:+ t).
Proof. done. Qed.

Lemma append_nil_r (s : string) : s +:+ "" = s.
Proof.
  induction s as [|c s IH]; [done |]. by rewrite append_cons, IH.
Qed.

Lemma str_in_end (a n : string) : str_in n (a +:+ n) = true.
Proof. apply str_in_spec. exists a, "". by rewrite append_nil_r. Qed.

Lemma append_assoc (a b c : string) : (a +:+ b) +:+ c = a +:+ b +:+ c.
Proof.
  induction a as [|x a IH]; [done |]. by rewrite !append_cons, IH.
Qed.

Lemma last_char_cons (c : ascii) (s : string) :
  s <> "" -> last_char (String c s) = last_char s.
Proof. by destruct s. Qed.

Lemma last_char_app (s t : string) :
  t <> "" -> last_char (s +:+ t) = last_char t.
Proof.
  intros Ht. induction s as [|c s IH]; [done |].
  rewrite append_cons, last_char_cons; [done |].
  destruct s; [done | by rewrite append_cons].
Qed.

Lemma last_char_None (s : string) : last_char s = None <-> s = "".
Proof.
  split; [| by intros ->].
  induction s as [|c s IH]; [done |].
  destruct s; [done |]. intros Hl. by specialize (IH Hl).
Qed.

End StringFacts.

(** ** Dictionaries *)

Section DictFacts.
Context {V : Type}.
Implicit Types (d : dict V) (k : string) (v : V).

Lemma dict_get_set_eq k v d : dict_get k (dict_set k v d) = Some v.
Proof.
  induction d as [|[k' v'] d IH]; simpl.
  - by rewrite decide_True.
  - destruct (decide (k = k')) as [->|Hne]; simpl.
    + by rewrite decide_True.
    + by rewrite decide_False.
Qed.

Lemma dict_get_set_ne k k' v d :
  k <> k' -> dict_get k' (dict_set k v d) = dict_get k' d.
Proof.
  intros Hne. induction d as [|[k0 v0] d IH]; simpl.
  - by rewrite decide_False.
  - destruct (decide (k = k0)) as [->|Hne0]; simpl.
    + by rewrite !decide_False.
    + by rewrite IH.
Qed.

Lemma dict_get_None k d : k ∉ d.*1 -> dict_get k d = None.
Proof.
  induction d as [|[k' v'] d IH]; simpl; [done |].
  intros Hnotin. apply not_elem_of_cons in Hnotin as [Hne Hnotin].
  rewrite decide_False; auto.
Qed.

Lemma dict_get_Some_elem k v d : dict_get k d = Some v -> (k, v) ∈ d.
Proof.
  induction d as [|[k' v'] d IH]; simpl; [done |].
  destruct (decide (k = k')) as [->|Hne].
  - intros [= ->]. left.
  - intros Hget. right. auto.
Qed.

(** Assigning to a key keeps the keys that were there, in their order,
    and puts a new key last. *)
Lemma dict_keys_set k v d :
  dict_keys (dict_set k v d)
  = if decide (k ∈ dict_keys d) then dict_keys d else dict_keys d ++ [k].
Proof.
  unfold dict_keys. induction d as [|[k' v'] d IH].
  - done.
  - cbn [dict_set]. destruct (decide (k = k')) as [->|Hne].
    + rewrite decide_True; [done | rewrite fmap_cons; left].
    + rewrite !fmap_cons, IH. cbn [fst].
      destruct (decide (k ∈ d.*1)) as [Hin|Hnotin].
      * rewrite decide_True; [done | by right].
      * rewrite decide_False; [done |].
        intros [?|?]%elem_of_cons; congruence.
Qed.

(** In the dictionary display of [d] followed by [more] a key of [more] has the value [more] gives it,
    any other key the value it has in [d]. *)
Lemma dict_get_update k d (more : dict V) :
  NoDup more.*1 ->
  dict_get k (dict_update d more)
  = match dict_get k more with
    | Some v => Some v
    | None => dict_get k d
    end.
Proof.
  unfold dict_update. revert d.
  induction more as [|[k1 v1] more IH]; intros d Hnd; simpl; [done |].
  apply NoDup_cons in Hnd as [Hfresh Hnd]. rewrite IH by done.
  destruct (decide (k = k1)) as [->|Hne].
  - rewrite (dict_get_None k1 more) by done. apply dict_get_set_eq.
  - rewrite dict_get_set_ne by congruence. done.
Qed.

(** The keys [d] starts with stay where they are under an update. *)
Lemma dict_keys_update_prefix d (more : dict V) :
  exists rest, dict_keys (dict_update d more) = dict_keys d ++ rest.
Proof.
  unfold dict_update. revert d.
  induction more as [|[k1 v1] more IH]; intros d; simpl.
  - exists []. by rewrite app_nil_r.
  - destruct (IH (dict_set k1 v1 d)) as [rest ->].
    rewrite dict_keys_set. case_decide.
    + by exists rest.
    + exists (k1 :: rest). by rewrite <- app_assoc.
Qed.

Lemma dict_update_unique (more : dict V) :
  NoDup more.*1 -> dict_update [] more = more.
Proof.
  unfold dict_update.
  assert (forall d, NoDup (d ++ more).*1 ->
                    foldl (fun acc kv => dict_set kv.1 kv.2 acc) d more
                    = d ++ more) as Hgen.
  { induction more as [|[k1 v1] more IH]; intros d Hnd; simpl.
    - by rewrite app_nil_r.
    - assert (dict_set k1 v1 d = d ++ [(k1, v1)]) as ->.
      { rewrite fmap_app in Hnd. apply NoDup_app in Hnd as (_ & Hdis & _).
        assert (k1 ∉ d.*1) as Hfresh.
        { intros Hin. apply (Hdis _ Hin). simpl. left. }
        clear -Hfresh. induction d as [|[k' v'] d IHd]; simpl; [done |].
        apply not_elem_of_cons in Hfresh as [Hne Hfresh].
        rewrite decide_False by done. by rewrite IHd. }
      rewrite IH; rewrite <- app_assoc; done. }
  intros Hnd. by apply (Hgen []).
Qed.

End DictFacts.

#[export] Instance extends_preorder : PreOrder extends.
Proof.
  split.
  - intros w. by split.
  - intros w1 w2 w3 [] []. split; try congruence; by etrans.
Qed.

Section Monotone.
Context `{Host}.

Lemma monotone_ret {A} (a : A) : monotone (ret a).
Proof. intros w. reflexivity. Qed.

Lemma monotone_raise {A} (e : exn) : monotone (raise (A:=A) e).
Proof. intros w. reflexivity. Qed.

Lemma monotone_out_of_fuel {A} : monotone (out_of_fuel (A:=A)).
Proof. intros w. reflexivity. Qed.

Lemma monotone_lift {A} (o : outcome A) : monotone (lift o).
Proof. intros w. reflexivity. Qed.

Lemma monotone_gets {A} (f : world -> A) : monotone (gets f).
Proof. intros w. reflexivity. Qed.

Lemma monotone_bind {A B} (m : M A) (k : A -> M B) :
  monotone m -> (forall a, monotone (k a)) -> monotone (bind m k).
Proof.
  intros Hm Hk w. unfold bind. specialize (Hm w).
  destruct (m w) as [[a| |] w']; simpl in *; [| done | done].
  etrans; [exact Hm | apply Hk].
Qed.

Lemma monotone_try_except {A} (body : M A) (handler : exn -> M A) :
  monotone body -> (forall e, monotone (handler e)) ->
  monotone (try_except body handler).
Proof.
  intros Hb Hh w. unfold try_except. specialize (Hb w).
  destruct (body w) as [[a|e|] w']; simpl in *; [done | | done].
  etrans; [exact Hb | apply Hh].
Qed.

Lemma monotone_for_each {A S} (xs : list A) (body : A -> S -> M S) acc :
  (forall x s, monotone (body x s)) -> monotone (for_each xs body acc).
Proof.
  intros Hbody. revert acc.
  induction xs as [|x xs IH]; intros acc; simpl.
  - apply monotone_ret.
  - apply monotone_bind; [apply Hbody | intros; apply IH].
Qed.

Lemma monotone_log_open (p : string) : monotone (modify (log_open p)).
Proof. intros w. split; simpl; try done. by apply prefix_app_r. Qed.

Lemma monotone_lookup {A} (f : world -> gmap string A) key :
  monotone
    (d <- gets f ;;
     match d !! key with
     | Some a => ret a
     | None => raise (KeyError key)
     end).
Proof.
  intros w. unfold bind, gets; simpl. destruct (f w !! key); reflexivity.
Qed.

(** *** How the private methods run *)

Lemma _get_config_run key w :
  _get_config key w
  = match _configs w !! key with
    | Some config => (Ok config, w)
    | None =>
        (Raise (RuntimeError ("Cannot find " +:+ dquote +:+ key
                                +:+ dquote +:+ " configuration")), w)
    end.
Proof.
  unfold _get_config, bind, gets; simpl. by destruct (_configs w !! key).
Qed.

Lemma monotone_get_config key : monotone (_get_config key).
Proof.
  intros w. rewrite _get_config_run.
  destruct (_configs w !! key); reflexivity.
Qed.

Lemma computed_manifest_path_run config w :
  computed_manifest_path config w
  = (get_computed_manifest_path (django_settings w) config, w).
Proof. done. Qed.

Lemma _parse_manifest_run key w :
  _parse_manifest key w
  = match _configs w !! key with
    | None =>
        (Raise (RuntimeError ("Cannot find " +:+ dquote +:+ key
                                +:+ dquote +:+ " configuration")), w)
    | Some config =>
        match get_computed_manifest_path (django_settings w) config with
        | Ok p =>
            match disk w !! fspath p with
            | Some (ManifestJson items) =>
                (Ok (dict_update [] items), log_open (fspath p) w)
            | Some (Broken error) =>
                (Raise (cannot_read p error), log_open (fspath p) w)
            | None =>
                (Raise (cannot_read p (no_such_file p)),
                 log_open (fspath p) w)
            end
        | Raise e => (Raise e, w)
        | OutOfFuel => (OutOfFuel, w)
        end
    end.
Proof.
  unfold _parse_manifest, bind at 1. rewrite _get_config_run.
  destruct (_configs w !! key) as [config|]; [| done].
  unfold try_except, bind, load_manifest_file, bind, modify, gets.
  rewrite computed_manifest_path_run.
  destruct (get_computed_manifest_path (django_settings w) config)
    as [p|e|] eqn:Hp; simpl; [| by rewrite Hp | done].
  destruct (disk w !! fspath p) as [[items|error]|]; simpl;
    by rewrite ?Hp.
Qed.

Lemma monotone_parse_manifest key : monotone (_parse_manifest key).
Proof.
  intros w. rewrite _parse_manifest_run.
  repeat case_match; simpl; try reflexivity;
    split; simpl; try done; by apply prefix_app_r.
Qed.

Lemma parse_manifest_keeps_caches key w :
  _manifests (_parse_manifest key w).2 = _manifests w
  /\ _static_urls (_parse_manifest key w).2 = _static_urls w.
Proof. rewrite _parse_manifest_run. by repeat case_match. Qed.

Lemma _get_manifest_hit key w m :
  _manifests w !! key = Some m -> _get_manifest key w = (Ok m, w).
Proof.
  intros Hm. unfold _get_manifest, bind, gets, ret; simpl.
  rewrite Hm; simpl. by rewrite Hm.
Qed.

Lemma _get_manifest_miss key w :
  _manifests w !! key = None ->
  _get_manifest key w
  = match _parse_manifest key w with
    | (Ok m, w') => (Ok m, set_manifests <[key := m]> w')
    | r => r
    end.
Proof.
  intros Hm. unfold _get_manifest, bind at 1, gets at 1; simpl.
  rewrite Hm. unfold bind, modify, gets.
  destruct (_parse_manifest key w) as [[m| |] w']; simpl; [| done | done].
  by rewrite lookup_insert_eq.
Qed.

Lemma monotone_get_manifest key : monotone (_get_manifest key).
Proof.
  intros w. destruct (_manifests w !! key) as [m|] eqn:Hm.
  - by rewrite (_get_manifest_hit _ _ _ Hm).
  - rewrite _get_manifest_miss by done.
    pose proof (monotone_parse_manifest key w) as Hext.
    destruct (parse_manifest_keeps_caches key w) as [Hkeep _].
    destruct (_parse_manifest key w) as [[m'| |] w']; simpl in *; try done.
    etrans; [exact Hext |]. split; simpl; try done.
    apply insert_subseteq. by rewrite Hkeep.
Qed.

Lemma _get_static_url_hit key w u :
  _static_urls w !! key = Some u -> _get_static_url key w = (Ok u, w).
Proof.
  intros Hu. unfold _get_static_url, bind, gets, ret; simpl.
  rewrite Hu; simpl. by rewrite Hu.
Qed.

Lemma _get_static_url_miss key w :
  _static_urls w !! key = None ->
  _get_static_url key w
  = match _configs w !! key with
    | None =>
        (Raise (RuntimeError ("Cannot find " +:+ dquote +:+ key
                                +:+ dquote +:+ " configuration")), w)
    | Some config =>
        let static_url :=
          urljoin (STATIC_URL (django_settings w))
                  (static_url_prefix config) in
        match last_char static_url with
        | None => (Raise (IndexError "string index out of range"), w)
        | Some c =>
            (Ok (with_trailing_slash static_url c),
             set_static_urls
               <[key := with_trailing_slash static_url c]> w)
        end
    end.
Proof.
  intros Hu. unfold _get_static_url, bind at 1, gets at 1; simpl.
  rewrite Hu. unfold bind at 1, bind at 1. rewrite _get_config_run.
  destruct (_configs w !! key) as [config|]; [| done].
  unfold bind, gets, lift, modify, str_getitem_last; simpl.
  destruct (last_char _) as [c|]; simpl; [| done].
  by rewrite lookup_insert_eq.
Qed.

Lemma monotone_get_static_url key : monotone (_get_static_url key).
Proof.
  intros w. destruct (_static_urls w !! key) as [u|] eqn:Hu.
  - by rewrite (_get_static_url_hit _ _ _ Hu).
  - rewrite _get_static_url_miss by done. cbv zeta.
    destruct (_configs w !! key); [| reflexivity].
    destruct (last_char _); [| reflexivity].
    split; simpl; try done. by apply insert_subseteq.
Qed.

(** *** The generators *)

Ltac monotone_step :=
  first
    [ apply monotone_ret | apply monotone_raise | apply monotone_lift
    | apply monotone_gets | apply monotone_out_of_fuel
    | apply monotone_get_config | apply monotone_get_static_url
    | apply monotone_get_manifest
    | apply monotone_bind; [| intros ?]
    | apply monotone_for_each; intros ? ?
    | progress cbv zeta
    | match goal with
      | |- monotone (match ?x with _ => _ end) => destruct x
      end ].

Lemma monotone_css_files fuel args :
  monotone (_generate_css_files_of_asset fuel args).
Proof.
  revert args. induction fuel as [|fuel IH]; intros args; simpl.
  - apply monotone_out_of_fuel.
  - destruct args; repeat monotone_step. apply IH.
Qed.

Lemma monotone_generate_vite_asset fuel path key kwargs :
  monotone (generate_vite_asset fuel path key kwargs).
Proof.
  unfold generate_vite_asset, not_in_manifest, computed_manifest_path.
  repeat monotone_step. apply monotone_css_files.
Qed.

Lemma monotone_generate_vite_asset_url path key :
  monotone (generate_vite_asset_url path key).
Proof.
  unfold generate_vite_asset_url, not_in_manifest, computed_manifest_path.
  repeat monotone_step.
Qed.

Lemma monotone_generate_vite_legacy_polyfills key kwargs :
  monotone (generate_vite_legacy_polyfills key kwargs).
Proof.
  unfold generate_vite_legacy_polyfills, computed_manifest_path.
  repeat monotone_step.
Qed.

Lemma monotone_generate_vite_legacy_asset path key kwargs :
  monotone (generate_vite_legacy_asset path key kwargs).
Proof.
  unfold generate_vite_legacy_asset, not_in_manifest,
    computed_manifest_path.
  repeat monotone_step.
Qed.

Lemma monotone_generate_vite_ws_client key :
  monotone (generate_vite_ws_client key).
Proof. unfold generate_vite_ws_client. repeat monotone_step. Qed.

Lemma extends_after c w : extends w (after c w).
Proof.
  destruct c; simpl.
  - apply monotone_get_manifest.
  - apply monotone_get_static_url.
  - apply monotone_generate_vite_asset.
  - apply monotone_generate_vite_asset_url.
  - apply monotone_generate_vite_legacy_polyfills.
  - apply monotone_generate_vite_legacy_asset.
  - apply monotone_generate_vite_ws_client.
Qed.

Lemma extends_after_all cs w : extends w (after_all cs w).
Proof.
  revert w. induction cs as [|c cs IH]; intros w; simpl; [reflexivity |].
  etrans; [apply extends_after | apply IH].
Qed.

End Monotone.

(** ** The manifest cache *)

Section ManifestCache.
Context `{Host}.

Lemma get_manifest_Ok_cached key w m w1 :
  _get_manifest key w = (Ok m, w1) -> _manifests w1 !! key = Some m.
Proof.
  destruct (_manifests w !! key) as [m0|] eqn:Hm.
  - rewrite (_get_manifest_hit _ _ _ Hm). by intros [= <- <-].
  - rewrite _get_manifest_miss by done.
    destruct (_parse_manifest key w) as [[m'| |] w']; [| done | done].
    intros [= <- <-]. simpl. apply lookup_insert_eq.
Qed.

Lemma get_manifest_Ok_opened key w m w1 :
  _get_manifest key w = (Ok m, w1) ->
  opened w1 = opened w \/ exists p, opened w1 = opened w ++ [p].
Proof.
  destruct (_manifests w !! key) as [m0|] eqn:Hm.
  - rewrite (_get_manifest_hit _ _ _ Hm). intros [= <- <-]. by left.
  - rewrite _get_manifest_miss, _parse_manifest_run by done.
    destruct (_configs w !! key) as [config|]; [| done].
    destruct (get_computed_manifest_path _ config) as [p| |]; try done.
    destruct (disk w !! fspath p) as [[items|error]|]; try done.
    intros [= <- <-]. right. by exists (fspath p).
Qed.

Lemma get_manifest_Raise key w e w1 :
  _get_manifest key w = (Raise e, w1) ->
  _manifests w !! key = None
  /\ (w1 = w /\ _parse_manifest key w = (Raise e, w)
      \/ exists p, w1 = log_open p w
           /\ (forall w', _configs w' = _configs w ->
                 django_settings w' = django_settings w ->
                 disk w' = disk w ->
                 _parse_manifest key w' = (Raise e, log_open p w'))
           /\ (forall w', _configs w' = _configs w ->
                 django_settings w' = django_settings w ->
                 forall f, disk w' !! p = Some (ManifestJson f) ->
                 _parse_manifest key w'
                 = (Ok (dict_update [] f), log_open p w'))).
Proof.
  intros Hrun. destruct (_manifests w !! key) as [m0|] eqn:Hm.
  { by rewrite (_get_manifest_hit _ _ _ Hm) in Hrun. }
  rewrite _get_manifest_miss in Hrun by done. split; [done |].
  destruct (_parse_manifest key w) as [[m'|e'|] w'] eqn:Hparse;
    [done | | done].
  injection Hrun as -> ->. revert Hparse. rewrite _parse_manifest_run.
  destruct (_configs w !! key) as [config|] eqn:Hc.
  2:{ intros [= <- <-]. by left. }
  destruct (get_computed_manifest_path (django_settings w) config)
    as [p| |] eqn:Hp; [| intros [= <- <-]; by left | done].
  intros Hrun. right. exists (fspath p).
  assert (w1 = log_open (fspath p) w) as ->.
  { destruct (disk w !! fspath p) as [[|]|]; by injection Hrun. }
  split; [done |]. split.
  - intros w' Hc' Hs' Hd'.
    rewrite _parse_manifest_run, Hc', Hc, Hs', Hp, Hd'.
    destruct (disk w !! fspath p) as [[|]|]; [done | |];
      by injection Hrun as <-.
  - intros w' Hc' Hs' f Hf.
    by rewrite _parse_manifest_run, Hc', Hc, Hs', Hp, Hf.
Qed.

End ManifestCache.

(** C5.  Once [_get_manifest] has succeeded for a configuration name, the
    parsed manifest is in the cache, at most one file was opened for it,
    and after any further calls on the loader a call with the same name
    returns that same manifest and leaves the process as it is, so that no
    file is opened again.  When the call raises, the cache is as before
    and has no entry for the name, and the next call goes through the
    load again: it opens the same file again when the first call opened
    one, and it succeeds when the file has become readable meanwhile. *)
Theorem get_manifest_caches_success_only `{Host} (key : string) (w : world) :
  (forall m w1, _get_manifest key w = (Ok m, w1) ->
     _manifests w1 !! key = Some m
     /\ (opened w1 = opened w \/ exists p, opened w1 = opened w ++ [p])
     /\ forall cs, _get_manifest key (after_all cs w1)
                   = (Ok m, after_all cs w1))
  /\ (forall e w1, _get_manifest key w = (Raise e, w1) ->
     _manifests w1 = _manifests w
     /\ _manifests w1 !! key = None
     /\ (w1 = w /\ _get_manifest key w1 = (Raise e, w1)
         \/ exists p, w1 = log_open p w
              /\ _get_manifest key w1 = (Raise e, log_open p w1)
              /\ forall f,
                   (_get_manifest key (write_file p (ManifestJson f) w1)).1
                   = Ok (dict_update [] f))).
Proof.
  split.
  - intros m w1 Hrun. pose proof (get_manifest_Ok_cached _ _ _ _ Hrun) as Hm.
    split; [done |]. split; [by eapply get_manifest_Ok_opened |].
    intros cs. apply _get_manifest_hit.
    pose proof (extends_after_all cs w1) as [_ _ _ Hsub _ _].
    by eapply lookup_weaken.
  - intros e w1 Hrun.
    destruct (get_manifest_Raise _ _ _ _ Hrun) as [Hm [[-> Hp] | Hread]].
    + split; [done |]. split; [done |]. left. by split.
    + destruct Hread as (p & -> & Hagain & Hretry).
      split; [done |]. split; [done |]. right. exists p. split; [done |].
      split.
      * rewrite _get_manifest_miss by done. by rewrite Hagain.
      * intros f. rewrite _get_manifest_miss by done.
        rewrite (Hretry (write_file p (ManifestJson f) (log_open p w))
                   eq_refl eq_refl f); [done |].
        simpl. apply lookup_insert_eq.
Qed.

(** ** The static URL *)

Lemma drop_last_app_slash (s : string) : drop_last (s +:+ "/") = s.
Proof.
  induction s as [|c s IH]; [done |].
  rewrite append_cons. cbn [drop_last]. rewrite IH.
  destruct s; [done | by rewrite append_cons].
Qed.

Lemma ends_with_slash_app (s : string) : ends_with_slash (s +:+ "/") = true.
Proof. unfold ends_with_slash. by rewrite last_char_app. Qed.

(** Whatever the libraries do elsewhere, a base URL that ends with two
    slashes comes back as it is under the default, empty, prefix. *)
Lemma get_static_url_two_slashes `{Host} (base : string) :
  (_get_static_url "default" (default_process (base +:+ "//") ∅)).1
  = Ok (base +:+ "//").
Proof.
  rewrite _get_static_url_miss by done.
  change (_configs _ !! "default")
    with (Some (DjangoViteConfig_new (StrPath "assets"))).
  cbv beta iota zeta.
  change (static_url_prefix (DjangoViteConfig_new _)) with "".
  change (STATIC_URL (django_settings _)) with (base +:+ "//").
  rewrite urljoin_no_url, (last_char_app base "//") by done. done.
Qed.

(** C6, as stated, fails: with the base URL [/static//] and the default
    prefix the URL returned ends with two slashes. *)
Lemma get_static_url_not_exactly_one_slash :
  (_get_static_url (H:=plain_host) "default"
     (default_process "/static//" ∅)).1 = Ok "/static//"
  /\ exactly_one_trailing_slash "/static//" = false.
Proof. split; [apply (get_static_url_two_slashes "/static") | done]. Qed.

(** C6, amended.  For a registered configuration whose static URL is not
    cached yet and whose joined URL is not empty, [_get_static_url]
    returns the joined URL itself when that ends with a slash and the
    joined URL followed by one slash otherwise; the result ends with a
    slash, with exactly one unless the joined URL already ended with two,
    and the next call returns the same string from the cache. *)
Theorem get_static_url_trailing_slash `{Host} (key : string) (w : world)
    (config : DjangoViteConfig) :
  _configs w !! key = Some config ->
  _static_urls w !! key = None ->
  urljoin (STATIC_URL (django_settings w)) (static_url_prefix config) <> "" ->
  exists u w1,
    _get_static_url key w = (Ok u, w1)
    /\ u = (if ends_with_slash
                 (urljoin (STATIC_URL (django_settings w))
                    (static_url_prefix config))
            then urljoin (STATIC_URL (django_settings w))
                   (static_url_prefix config)
            else urljoin (STATIC_URL (django_settings w))
                   (static_url_prefix config) +:+ "/")
    /\ ends_with_slash u = true
    /\ exactly_one_trailing_slash u
       = negb (ends_with_slash
                 (urljoin (STATIC_URL (django_settings w))
                    (static_url_prefix config))
               && ends_with_slash
                    (drop_last
                       (urljoin (STATIC_URL (django_settings w))
                          (static_url_prefix config))))
    /\ _get_static_url key w1 = (Ok u, w1).
Proof.
  intros Hc Hu Hne. rewrite _get_static_url_miss, Hc by done. cbv zeta.
  set (joined := urljoin _ _) in *.
  destruct (last_char joined) as [c|] eqn:Hlast.
  2:{ by apply last_char_None in Hlast. }
  eexists _, _. split; [done |].
  assert (ends_with_slash joined = bool_decide (c = "/"%char)) as Hends.
  { unfold ends_with_slash. rewrite Hlast.
    apply bool_decide_ext. split; [by intros [= ->] | by intros ->]. }
  unfold with_trailing_slash. rewrite Hends.
  destruct (decide (c = "/"%char)) as [->|Hc'].
  - rewrite bool_decide_true in * by done.
    repeat split; try done.
    + unfold exactly_one_trailing_slash. by rewrite Hends.
    + apply _get_static_url_hit. simpl. apply lookup_insert_eq.
  - rewrite bool_decide_false in * by done.
    repeat split; try done.
    + apply ends_with_slash_app.
    + unfold exactly_one_trailing_slash.
      by rewrite ends_with_slash_app, drop_last_app_slash, Hends.
    + apply _get_static_url_hit. simpl. apply lookup_insert_eq.
Qed.

Lemma get_static_url_trailing_slash_witness :
  exists u w1,
    _get_static_url (H:=plain_host) "default" (default_process "/static" ∅)
    = (Ok u, w1)
    /\ u = "/static/"
    /\ ends_with_slash u = true
    /\ exactly_one_trailing_slash u = true
    /\ _get_static_url (H:=plain_host) "default" w1 = (Ok u, w1).
Proof.
  apply (get_static_url_trailing_slash (H:=plain_host) "default"
           (default_process "/static" ∅)
           (DjangoViteConfig_new (StrPath "assets")));
    [reflexivity | reflexivity | vm_compute; discriminate].
Defined.

(** ** Running the generators *)

Lemma bind_Ok {A B} (m : M A) (k : A -> M B) w a w' :
  m w = (Ok a, w') -> bind m k w = k a w'.
Proof. unfold bind. by intros ->. Qed.

Lemma bind_Raise {A B} (m : M A) (k : A -> M B) w e w' :
  m w = (Raise e, w') -> bind m k w = (Raise e, w').
Proof. unfold bind. by intros ->. Qed.

Section Production.
Context `{Host}.

Lemma get_config_extends key w w' config :
  extends w w' -> _configs w !! key = Some config ->
  _get_config key w' = (Ok config, w').
Proof.
  intros [_ _ Hc _ _ _] Hkey. by rewrite _get_config_run, Hc, Hkey.
Qed.

(** In production mode the manifest has a location, unless no manifest
    path is set and [STATIC_ROOT] is not set either. *)
Lemma manifest_path_production s config :
  dev_mode config = false ->
  match get_computed_manifest_path s config with
  | Ok location => True
  | Raise e =>
      STATIC_ROOT s = None /\ pathlike_truthy (manifest_path config) = false
  | OutOfFuel => False
  end.
Proof.
  intros Hprod. unfold get_computed_manifest_path, static_root.
  rewrite Hprod. destruct (pathlike_truthy _); [done |].
  by destruct (STATIC_ROOT s).
Qed.

Lemma not_in_manifest_run path config w location :
  get_computed_manifest_path (django_settings w) config = Ok location ->
  not_in_manifest path config w
  = (Ok ("Cannot find " +:+ path +:+ " in Vite manifest at "
           +:+ fspath location), w).
Proof.
  intros Hloc. unfold not_in_manifest, bind.
  by rewrite computed_manifest_path_run, Hloc.
Qed.

Lemma not_in_manifest_raises path config w e :
  get_computed_manifest_path (django_settings w) config = Raise e ->
  not_in_manifest path config w = (Raise e, w).
Proof.
  intros Hloc. unfold not_in_manifest, bind.
  by rewrite computed_manifest_path_run, Hloc.
Qed.

(** A cache that satisfies [manifests_from_disk], as every cache that
    the loader has filled does, holds manifests with a location only. *)
Lemma cached_manifest_has_location key w manifest config :
  manifests_from_disk w ->
  _manifests w !! key = Some manifest ->
  _configs w !! key = Some config ->
  exists location,
    get_computed_manifest_path (django_settings w) config = Ok location.
Proof.
  intros Hdisk Hm Hc.
  destruct (Hdisk key manifest Hm) as (config' & p & items & Hc' & Hp & _).
  exists p. congruence.
Qed.

(** A manifest that [_get_manifest] returns although its location cannot
    be computed was in the cache already: this call did not load it. *)
Lemma manifest_without_location_was_cached key w manifest w' config e :
  _configs w !! key = Some config ->
  _get_manifest key w = (Ok manifest, w') ->
  get_computed_manifest_path (django_settings w) config = Raise e ->
  _manifests w !! key = Some manifest.
Proof.
  intros Hc Hm He. destruct (_manifests w !! key) as [m|] eqn:Hk.
  - rewrite (_get_manifest_hit _ _ _ Hk) in Hm. by injection Hm as -> _.
  - rewrite _get_manifest_miss, _parse_manifest_run, Hc, He in Hm by done.
    done.
Qed.

End Production.

(** C8.  In production mode, with the static URL and the manifest of the
    configuration obtained, [generate_vite_asset_url] raises for a path
    that is not in the manifest a [RuntimeError] whose message holds the
    path and the location of the manifest, and returns for a path that is
    in it the static URL joined with the file of the entry.  The location
    is computed for the message: it exists whenever [STATIC_ROOT] is set
    and whenever this call loaded the manifest; for a manifest that was
    in the cache without a location, which no cache filled by the loader
    holds (see [manifests_from_disk]), the exception of that computation
    is raised in place of the [RuntimeError]. *)
Theorem generate_vite_asset_url_production `{Host} (path key : string)
    (w w1 w2 : world) (config : DjangoViteConfig) (static_url : string)
    (manifest : dict DjangoViteManifest) :
  _configs w !! key = Some config ->
  dev_mode config = false ->
  _get_static_url key w = (Ok static_url, w1) ->
  _get_manifest key w1 = (Ok manifest, w2) ->
  match dict_get path manifest with
  | None =>
      match get_computed_manifest_path (django_settings w) config with
      | Ok location =>
          exists msg,
            generate_vite_asset_url path key w
            = (Raise (RuntimeError msg), w2)
            /\ msg = "Cannot find " +:+ path +:+ " in Vite manifest at "
                       +:+ fspath location
            /\ str_in path msg = true
            /\ str_in (fspath location) msg = true
      | Raise e =>
          STATIC_ROOT (django_settings w) = None
          /\ _manifests w1 !! key = Some manifest
          /\ generate_vite_asset_url path key w = (Raise e, w2)
      | OutOfFuel => False
      end
  | Some entry =>
      generate_vite_asset_url path key w
      = (Ok (urljoin static_url (file entry)), w2)
  end.
Proof.
  intros Hc Hprod Hsu Hm.
  assert (extends w w1) as Hw1.
  { pose proof (monotone_get_static_url key w) as Hext. by rewrite Hsu in Hext. }
  assert (extends w1 w2) as Hw2.
  { pose proof (monotone_get_manifest key w1) as Hext. by rewrite Hm in Hext. }
  assert (generate_vite_asset_url path key w
          = match dict_get path manifest with
            | None =>
                (msg <- not_in_manifest path config ;;
                 raise (RuntimeError msg)) w2
            | Some entry => (Ok (urljoin static_url (file entry)), w2)
            end) as ->.
  { unfold generate_vite_asset_url.
    rewrite (bind_Ok _ _ w config w) by by rewrite _get_config_run, Hc.
    rewrite (bind_Ok _ _ _ _ _ Hsu), Hprod, (bind_Ok _ _ _ _ _ Hm).
    by destruct (dict_get path manifest). }
  destruct (dict_get path manifest) as [entry|]; [done |].
  assert (django_settings w2 = django_settings w) as Hs.
  { destruct Hw1, Hw2. congruence. }
  pose proof (manifest_path_production (django_settings w) config Hprod)
    as Hpath.
  destruct (get_computed_manifest_path (django_settings w) config)
    as [location|e|] eqn:Hloc; [| | done].
  - eexists. split.
    { erewrite bind_Ok; [done |].
      apply not_in_manifest_run. by rewrite Hs. }
    split; [done |]. split.
    + apply (str_in_middle "Cannot find ").
    + rewrite <- append_assoc, <- append_assoc. apply str_in_end.
  - destruct Hpath as [Hroot _]. split; [done |]. split.
    + apply (manifest_without_location_was_cached key w1 manifest w2 config
               e); [| done |].
      * destruct Hw1. congruence.
      * destruct Hw1. congruence.
    + erewrite bind_Raise; [done |].
      apply not_in_manifest_raises. by rewrite Hs.
Qed.

Lemma generate_vite_asset_url_production_witness :
  generate_vite_asset_url (H:=plain_host) "b" "default" production_process
  = (Ok "/static/b.456.js", production_process_warm)
  /\ exists msg,
       generate_vite_asset_url (H:=plain_host) "c" "default"
         production_process
       = (Raise (RuntimeError msg), production_process_warm)
       /\ msg = "Cannot find c in Vite manifest at /srv/static/manifest.json"
       /\ str_in "c" msg = true
       /\ str_in "/srv/static/manifest.json" msg = true.
Proof.
  split.
  - apply (generate_vite_asset_url_production (H:=plain_host) "b" "default"
             production_process
             (_get_static_url (H:=plain_host) "default" production_process).2
             production_process_warm
             (DjangoViteConfig_new (StrPath "assets")) "/static/"
             manifest_ab); by vm_compute.
  - apply (generate_vite_asset_url_production (H:=plain_host) "c" "default"
             production_process
             (_get_static_url (H:=plain_host) "default" production_process).2
             production_process_warm
             (DjangoViteConfig_new (StrPath "assets")) "/static/"
             manifest_ab); by vm_compute.
Defined.

(** ** The legacy polyfills *)

Section Polyfills.
Context `{Host}.

Lemma polyfills_scan_first motif static_url attrs before path content rest :
  (forall kv, kv ∈ before -> str_in motif kv.1 = false) ->
  str_in motif path = true ->
  polyfills_scan motif static_url attrs (before ++ (path, content) :: rest)
  = Some (_generate_script_tag (urljoin static_url (file content)) attrs).
Proof.
  intros Hbefore Hpath. induction before as [|[k e] before IH]; simpl.
  - by rewrite Hpath.
  - assert (str_in motif k = false) as -> by (apply (Hbefore (k, e)); left).
    apply IH. intros kv Hkv. apply Hbefore. by right.
Qed.

Lemma polyfills_scan_none motif static_url attrs items :
  (forall kv, kv ∈ items -> str_in motif kv.1 = false) ->
  polyfills_scan motif static_url attrs items = None.
Proof.
  intros Hitems. induction items as [|[k e] items IH]; simpl; [done |].
  assert (str_in motif k = false) as -> by (apply (Hitems (k, e)); left).
  apply IH. intros kv Hkv. apply Hitems. by right.
Qed.

End Polyfills.

(** C9.  In production mode, with the manifest and the static URL of the
    configuration obtained, [generate_vite_legacy_polyfills] goes through
    the entries in the order of the manifest and returns the script tag of
    the first entry whose key has the motif as a substring.  The tag is
    the text of a script element: its attributes, each rendered as the
    key, an equals sign and the value between double quotes, separated by
    single spaces, and behind them the source, which is the static URL
    joined with the file of that entry.  The attributes are nomodule and
    crossorigin, both empty, updated with the keyword arguments: they
    start with these two keys, and without keyword arguments the tag is
    the script element with nomodule, crossorigin and the source.  When
    no key has the motif it raises the [RuntimeError] that names the
    location of the manifest; the location exists whenever [STATIC_ROOT]
    is set and whenever this call loaded the manifest, and for a manifest
    that was in the cache without a location, which no cache filled by
    the loader holds (see [manifests_from_disk]), the exception of
    computing it is raised in place of the [RuntimeError]. *)
Theorem generate_vite_legacy_polyfills_production `{Host} (key : string)
    (kwargs : dict string) (w w1 w2 : world) (config : DjangoViteConfig)
    (manifest : dict DjangoViteManifest) (static_url : string) :
  _configs w !! key = Some config ->
  dev_mode config = false ->
  _get_manifest key w = (Ok manifest, w1) ->
  _get_static_url key w1 = (Ok static_url, w2) ->
  (exists rest,
     dict_keys (dict_update [("nomodule", ""); ("crossorigin", "")] kwargs)
     = "nomodule" :: "crossorigin" :: rest)
  /\ (NoDup kwargs.*1 ->
      forall k,
        dict_get k (dict_update [("nomodule", ""); ("crossorigin", "")]
                      kwargs)
        = match dict_get k kwargs with
          | Some v => Some v
          | None => dict_get k [("nomodule", ""); ("crossorigin", "")]
          end)
  /\ (forall before path content rest,
        manifest = before ++ (path, content) :: rest ->
        (forall kv, kv ∈ before ->
                    str_in (legacy_polyfills_motif config) kv.1 = false) ->
        str_in (legacy_polyfills_motif config) path = true ->
        generate_vite_legacy_polyfills key kwargs w
        = (Ok (_generate_script_tag (urljoin static_url (file content))
                 (dict_update [("nomodule", ""); ("crossorigin", "")]
                    kwargs)), w2)
        /\ generate_vite_legacy_polyfills key kwargs w
           = (Ok ("<script "
                    +:+ join " "
                          ((fun kv => kv.1 +:+ "=" +:+ dquote +:+ kv.2
                                        +:+ dquote)
                             <$> dict_update
                                   [("nomodule", ""); ("crossorigin", "")]
                                   kwargs)
                    +:+ " src=" +:+ dquote
                    +:+ urljoin static_url (file content) +:+ dquote
                    +:+ "></script>"), w2)
        /\ (kwargs = [] ->
            generate_vite_legacy_polyfills key kwargs w
            = (Ok ("<script nomodule=" +:+ dquote +:+ dquote
                     +:+ " crossorigin=" +:+ dquote +:+ dquote
                     +:+ " src=" +:+ dquote
                     +:+ urljoin static_url (file content) +:+ dquote
                     +:+ "></script>"), w2)))
  /\ ((forall kv, kv ∈ manifest ->
                  str_in (legacy_polyfills_motif config) kv.1 = false) ->
      match get_computed_manifest_path (django_settings w) config with
      | Ok location =>
          generate_vite_legacy_polyfills key kwargs w
          = (Raise (RuntimeError
                      ("Vite legacy polyfills not found in manifest at "
                         +:+ fspath location)), w2)
      | Raise e =>
          STATIC_ROOT (django_settings w) = None
          /\ _manifests w !! key = Some manifest
          /\ generate_vite_legacy_polyfills key kwargs w = (Raise e, w2)
      | OutOfFuel => False
      end).
Proof.
  intros Hc Hprod Hm Hsu.
  assert (extends w w1) as Hw1.
  { pose proof (monotone_get_manifest key w) as Hext. by rewrite Hm in Hext. }
  assert (extends w1 w2) as Hw2.
  { pose proof (monotone_get_static_url key w1) as Hext.
    by rewrite Hsu in Hext. }
  assert (generate_vite_legacy_polyfills key kwargs w
          = match polyfills_scan (legacy_polyfills_motif config) static_url
                    (dict_update [("nomodule", ""); ("crossorigin", "")]
                       kwargs) manifest with
            | Some tag => (Ok tag, w2)
            | None =>
                (p <- computed_manifest_path config ;;
                 raise (RuntimeError
                          ("Vite legacy polyfills not found in manifest at "
                             +:+ fspath p))) w2
            end) as ->.
  { unfold generate_vite_legacy_polyfills.
    rewrite (bind_Ok _ _ w config w) by by rewrite _get_config_run, Hc.
    rewrite (bind_Ok _ _ _ _ _ Hm), (bind_Ok _ _ _ _ _ Hsu), Hprod.
    cbv zeta. by destruct (polyfills_scan _ _ _ _). }
  split; [| split; [| split]].
  - apply (dict_keys_update_prefix [("nomodule", ""); ("crossorigin", "")]).
  - intros Hnd k. by apply dict_get_update.
  - intros before path content rest -> Hbefore Hpath.
    rewrite polyfills_scan_first by done.
    split; [done |]. split; [done |]. by intros ->.
  - intros Hnone. rewrite polyfills_scan_none by done.
    assert (django_settings w2 = django_settings w) as Hs.
    { destruct Hw1, Hw2. congruence. }
    pose proof (manifest_path_production (django_settings w) config Hprod)
      as Hpath.
    destruct (get_computed_manifest_path (django_settings w) config)
      as [location|e|] eqn:Hloc; [| | done].
    + unfold bind. by rewrite computed_manifest_path_run, Hs, Hloc.
    + destruct Hpath as [Hroot _]. split; [done |]. split.
      * by apply (manifest_without_location_was_cached key w manifest w1
                    config e).
      * unfold bind. by rewrite computed_manifest_path_run, Hs, Hloc.
Qed.

Lemma generate_vite_legacy_polyfills_production_witness :
  generate_vite_legacy_polyfills (H:=plain_host) "default" [] legacy_process
  = (Ok ("<script nomodule=" +:+ dquote +:+ dquote
           +:+ " crossorigin=" +:+ dquote +:+ dquote
           +:+ " src=" +:+ dquote +:+ "/static/polyfills-legacy.789.js"
           +:+ dquote +:+ "></script>"), legacy_process_warm)
  /\ generate_vite_legacy_polyfills (H:=plain_host) "default" []
       production_process
     = (Raise (RuntimeError
                 "Vite legacy polyfills not found in manifest at /srv/static/manifest.json"),
        production_process_warm).
Proof.
  split.
  - destruct (generate_vite_legacy_polyfills_production (H:=plain_host)
                "default" [] legacy_process
                (_get_manifest (H:=plain_host) "default" legacy_process).2
                legacy_process_warm
                (DjangoViteConfig_new (StrPath "assets"))
                manifest_legacy "/static/")
      as (_ & _ & Hfirst & _); [by vm_compute ..|].
    destruct (Hfirst [("main", entry_main)] "legacy-polyfills-abc"
                entry_polyfills []) as (_ & _ & Htext); [done | | done |].
    + intros kv ->%list_elem_of_singleton. done.
    + exact (Htext eq_refl).
  - destruct (generate_vite_legacy_polyfills_production (H:=plain_host)
                "default" [] production_process
                (_get_manifest (H:=plain_host) "default"
                   production_process).2
                production_process_warm
                (DjangoViteConfig_new (StrPath "assets"))
                manifest_ab "/static/")
      as (_ & _ & _ & Hnone); [by vm_compute ..|].
    apply Hnone. intros kv Hkv.
    apply elem_of_cons in Hkv as [-> | Hkv]; [done |].
    apply list_elem_of_singleton in Hkv as ->. done.
Defined.

(** ** Script tags *)

Lemma join_snoc (sep : string) (parts : list string) (last : string) :
  parts <> [] ->
  join sep (parts ++ [last]) = join sep parts +:+ sep +:+ last.
Proof.
  unfold join. induction parts as [|x parts IH]; [done |]. intros _.
  destruct parts as [|y parts]; [done |].
  change (String.concat sep ((x :: y :: parts) ++ [last]))
    with (x +:+ sep +:+ String.concat sep ((y :: parts) ++ [last])).
  rewrite IH by done.
  change (String.concat sep (x :: y :: parts))
    with (x +:+ sep +:+ String.concat sep (y :: parts)).
  by rewrite !append_assoc.
Qed.

(** The tag ends with the source, rendered like one more attribute. *)
Lemma script_tag_src_last (src : string) (attrs : dict string) :
  _generate_script_tag src attrs
  = "<script " +:+ join " " (render_attr <$> attrs) +:+ " "
      +:+ render_attr ("src", src) +:+ "></script>".
Proof.
  unfold _generate_script_tag, render_attr. cbn [fst snd].
  do 2 f_equal. by rewrite !append_assoc.
Qed.

(** C10.  A script tag is the attributes, each rendered as the key, an
    equals sign and the value between double quotes, separated by single
    spaces, with the source rendered the same way behind them.  In
    [generate_vite_asset], production mode, the attributes of the script
    tag are the defaults type and crossorigin updated with the keyword
    arguments: a key the caller passes has the value of the caller, any
    other key its default, and the two default keys come first. *)
Theorem script_tag_attributes `{Host} (fuel : nat) (path key : string)
    (kwargs : dict string) (w w1 w2 w3 : world) (config : DjangoViteConfig)
    (static_url : string) (manifest : dict DjangoViteManifest)
    (entry : DjangoViteManifest) (tags processed : list string) :
  NoDup kwargs.*1 ->
  _configs w !! key = Some config ->
  dev_mode config = false ->
  _get_static_url key w = (Ok static_url, w1) ->
  _get_manifest key w1 = (Ok manifest, w2) ->
  dict_get path manifest = Some entry ->
  _generate_css_files_of_asset fuel (CssArgs3 path key []) w2
  = (Ok (tags, processed), w3) ->
  (forall k v, render_attr (k, v) = k +:+ "=" +:+ dquote +:+ v +:+ dquote)
  /\ (forall src attrs,
        _generate_script_tag src attrs
        = "<script " +:+ join " " (render_attr <$> attrs) +:+ " "
            +:+ render_attr ("src", src) +:+ "></script>"
        /\ (attrs <> [] ->
            _generate_script_tag src attrs
            = "<script "
                +:+ join " " (render_attr <$> attrs ++ [("src", src)])
                +:+ "></script>"))
  /\ generate_vite_asset fuel path key kwargs w
     = (Ok (join newline
              (tags ++ [_generate_script_tag
                          (urljoin static_url (file entry))
                          (dict_update
                             [("type", "module"); ("crossorigin", "")]
                             kwargs)])), w3)
  /\ (forall k,
        dict_get k (dict_update [("type", "module"); ("crossorigin", "")]
                      kwargs)
        = match dict_get k kwargs with
          | Some v => Some v
          | None => dict_get k [("type", "module"); ("crossorigin", "")]
          end)
  /\ (dict_get "type" kwargs = None ->
      dict_get "type" (dict_update [("type", "module"); ("crossorigin", "")]
                         kwargs) = Some "module")
  /\ (dict_get "crossorigin" kwargs = None ->
      dict_get "crossorigin"
        (dict_update [("type", "module"); ("crossorigin", "")] kwargs)
      = Some "")
  /\ exists rest,
       dict_keys (dict_update [("type", "module"); ("crossorigin", "")]
                    kwargs)
       = "type" :: "crossorigin" :: rest.
Proof.
  intros Hnd Hc Hprod Hsu Hm Hentry Hwalk.
  split; [done |]. split.
  { intros src attrs. split; [apply script_tag_src_last |].
    intros Hattrs. rewrite script_tag_src_last, fmap_app.
    change (render_attr <$> [("src", src)]) with [render_attr ("src", src)].
    rewrite join_snoc.
    - by rewrite !append_assoc.
    - by destruct attrs. }
  split.
  { unfold generate_vite_asset.
    rewrite (bind_Ok _ _ w config w) by by rewrite _get_config_run, Hc.
    rewrite (bind_Ok _ _ _ _ _ Hsu), Hprod, (bind_Ok _ _ _ _ _ Hm), Hentry.
    cbv zeta. rewrite (bind_Ok _ _ _ _ _ Hwalk).
    unfold bind, lift, dict_getitem. by rewrite Hentry. }
  split; [intros k; by apply dict_get_update |].
  split; [intros Hk; by rewrite dict_get_update, Hk |].
  split; [intros Hk; by rewrite dict_get_update, Hk |].
  apply (dict_keys_update_prefix [("type", "module"); ("crossorigin", "")]).
Qed.

Lemma script_tag_attributes_witness :
  generate_vite_asset (H:=plain_host) 1 "b" "default"
    [("type", "text/javascript"); ("defer", "defer")] production_process
  = (Ok (join newline
           [ _generate_stylesheet_tag "/static/a.css";
             _generate_stylesheet_tag "/static/b.css";
             _generate_script_tag "/static/b.456.js"
               [("type", "text/javascript"); ("crossorigin", "");
                ("defer", "defer")] ]),
     production_process_warm).
Proof.
  destruct (script_tag_attributes (H:=plain_host) 1 "b" "default"
              [("type", "text/javascript"); ("defer", "defer")]
              production_process
              (_get_static_url (H:=plain_host) "default"
                 production_process).2
              production_process_warm production_process_warm
              (DjangoViteConfig_new (StrPath "assets")) "/static/"
              manifest_ab entry_b
              [ _generate_stylesheet_tag "/static/a.css";
                _generate_stylesheet_tag "/static/b.css" ]
              [ "a.css"; "b.css" ])
    as (_ & _ & Hrun & _); [| by vm_compute .. | exact Hrun].
  apply (bool_decide_unpack _). by vm_compute.
Defined.

(** ** Termination of the walk over the imports *)

Section Answers.
Context `{Host}.

Lemma answers_ret {A} (a : A) : answers (ret a).
Proof. by intros w. Qed.

Lemma answers_raise {A} (e : exn) : answers (raise (A:=A) e).
Proof. by intros w. Qed.

Lemma answers_gets {A} (f : world -> A) : answers (gets f).
Proof. by intros w. Qed.

Lemma answers_lift {A} (o : outcome A) : o <> OutOfFuel -> answers (lift o).
Proof. by intros Ho w. Qed.

Lemma answers_bind {A B} (m : M A) (k : A -> M B) :
  answers m -> (forall a, answers (k a)) -> answers (bind m k).
Proof.
  intros Hm Hk w. unfold bind. specialize (Hm w).
  destruct (m w) as [[a| |] w']; simpl in *; [apply Hk | done | done].
Qed.

Lemma answers_for_each {A S} (xs : list A) (body : A -> S -> M S) acc :
  (forall x s, answers (body x s)) -> answers (for_each xs body acc).
Proof.
  intros Hbody. revert acc. induction xs as [|x xs IH]; intros acc; simpl.
  - apply answers_ret.
  - apply answers_bind; [apply Hbody | intros; apply IH].
Qed.

Lemma answers_get_config key : answers (_get_config key).
Proof.
  intros w. rewrite _get_config_run. by destruct (_configs w !! key).
Qed.

Lemma get_computed_manifest_path_answers s config :
  get_computed_manifest_path s config <> OutOfFuel.
Proof.
  unfold get_computed_manifest_path, static_root, pathlike_truediv.
  by repeat case_match.
Qed.

Lemma answers_computed_manifest_path config :
  answers (computed_manifest_path config).
Proof.
  intros w. rewrite computed_manifest_path_run.
  apply get_computed_manifest_path_answers.
Qed.

Lemma answers_parse_manifest key : answers (_parse_manifest key).
Proof.
  intros w. rewrite _parse_manifest_run.
  pose proof get_computed_manifest_path_answers.
  repeat case_match; naive_solver.
Qed.

Lemma answers_get_manifest key : answers (_get_manifest key).
Proof.
  intros w. destruct (_manifests w !! key) as [m|] eqn:Hm.
  - by rewrite (_get_manifest_hit _ _ _ Hm).
  - rewrite _get_manifest_miss by done.
    pose proof (answers_parse_manifest key w).
    by destruct (_parse_manifest key w) as [[| |] ?].
Qed.

Lemma answers_get_static_url key : answers (_get_static_url key).
Proof.
  intros w. destruct (_static_urls w !! key) as [u|] eqn:Hu.
  - by rewrite (_get_static_url_hit _ _ _ Hu).
  - rewrite _get_static_url_miss by done. cbv zeta.
    by repeat case_match.
Qed.

(** A budget of two calls is enough for the walk: the call the method
    makes of itself passes two arguments for three parameters and raises
    before its body runs. *)
Lemma answers_css_files n args :
  answers (_generate_css_files_of_asset (S (S n)) args).
Proof.
  destruct args as [path key processed|path processed];
    [| apply answers_raise].
  cbn [_generate_css_files_of_asset].
  apply answers_bind; [apply answers_get_static_url | intros static_url].
  apply answers_bind; [apply answers_get_manifest | intros manifest].
  apply answers_bind.
  { apply answers_lift. unfold dict_getitem. by case_match. }
  intros entry. apply answers_bind; [| intros; apply answers_ret].
  apply answers_for_each. intros import_path st.
  apply answers_bind; [apply answers_raise | intros; apply answers_ret].
Qed.

Lemma answers_generate_vite_asset n path key kwargs :
  answers (generate_vite_asset (S (S n)) path key kwargs).
Proof.
  unfold generate_vite_asset.
  apply answers_bind; [apply answers_get_config | intros config].
  apply answers_bind; [apply answers_get_static_url | intros static_url].
  destruct (dev_mode config).
  { apply answers_bind; [by apply answers_lift | intros; apply answers_ret]. }
  apply answers_bind; [apply answers_get_manifest | intros manifest].
  destruct (dict_get path manifest) as [entry|] eqn:Hentry.
  - cbv zeta.
    apply answers_bind; [apply answers_css_files | intros r].
    apply answers_bind; [| intros; apply answers_ret].
    apply answers_lift. unfold dict_getitem. by rewrite Hentry.
  - apply answers_bind; [| intros; apply answers_raise].
    unfold not_in_manifest.
    apply answers_bind; [| intros; apply answers_ret].
    apply answers_computed_manifest_path.
Qed.

End Answers.

(** C7.  For a configuration whose manifest has imports without a cycle,
    the walk over the imports that [generate_vite_asset] makes comes to an
    end: from some budget of nested calls on, neither the walk nor the
    generator runs out of it. *)
Theorem css_walk_terminates `{Host} (path key : string)
    (kwargs : dict string) (w : world) (manifest : dict DjangoViteManifest) :
  (_get_manifest key w).1 = Ok manifest ->
  acyclic manifest ->
  exists fuel, forall n, fuel <= n ->
    (forall processed,
       (_generate_css_files_of_asset n (CssArgs3 path key processed) w).1
       <> OutOfFuel)
    /\ (generate_vite_asset n path key kwargs w).1 <> OutOfFuel.
Proof.
  intros _ _. exists 2. intros n Hn.
  destruct n as [|[|n]]; [lia | lia |]. split.
  - intros processed. apply answers_css_files.
  - apply answers_generate_vite_asset.
Qed.

Lemma acyclic_manifest_ab : acyclic manifest_ab.
Proof.
  exists (fun k => if decide (k = "a") then 1 else 0). intros k e i.
  unfold manifest_ab. cbn [dict_get].
  destruct (decide (k = "a")) as [->|Ha].
  - intros [= <-] ->%list_elem_of_singleton.
    cbv beta. rewrite decide_False by done. lia.
  - destruct (decide (k = "b")) as [->|Hb]; [| done].
    intros [= <-] Hi. by apply elem_of_nil in Hi.
Defined.

Lemma css_walk_terminates_witness :
  exists fuel, forall n, fuel <= n ->
    (forall processed,
       (_generate_css_files_of_asset (H:=plain_host) n
          (CssArgs3 "a" "default" processed) production_process).1
       <> OutOfFuel)
    /\ (generate_vite_asset (H:=plain_host) n "a" "default" []
          production_process).1 <> OutOfFuel.
Proof.
  apply (css_walk_terminates (H:=plain_host) "a" "default" []
           production_process (dict_update [] manifest_ab));
    [by vm_compute | exact acyclic_manifest_ab].
Defined.

(** ** The walk over the imports, as the method runs *)

Section Walk.
Context `{Host}.

(** An entry without imports: the walk is the loop over its stylesheets. *)
Lemma css_files_leaf n path key processed w w1 w2 static_url manifest entry :
  _get_static_url key w = (Ok static_url, w1) ->
  _get_manifest key w1 = (Ok manifest, w2) ->
  dict_get path manifest = Some entry ->
  imports entry = [] ->
  _generate_css_files_of_asset (S n) (CssArgs3 path key processed) w
  = (Ok (css_loop static_url (css entry) ([], processed)), w2).
Proof.
  intros Hsu Hm Hentry Himports. cbn [_generate_css_files_of_asset].
  rewrite (bind_Ok _ _ _ _ _ Hsu), (bind_Ok _ _ _ _ _ Hm).
  unfold bind, lift, dict_getitem. by rewrite Hentry, Himports.
Qed.

(** An entry with an import: the call for the first import raises while
    its arguments are bound, and the exception leaves the walk. *)
Lemma css_files_import_raises n path key processed w w1 w2 static_url
    manifest entry import_path rest :
  _get_static_url key w = (Ok static_url, w1) ->
  _get_manifest key w1 = (Ok manifest, w2) ->
  dict_get path manifest = Some entry ->
  imports entry = import_path :: rest ->
  _generate_css_files_of_asset (S (S n)) (CssArgs3 path key processed) w
  = (Raise css_files_missing_argument, w2).
Proof.
  intros Hsu Hm Hentry Himports. cbn [_generate_css_files_of_asset].
  rewrite (bind_Ok _ _ _ _ _ Hsu), (bind_Ok _ _ _ _ _ Hm).
  unfold bind at 1, lift, dict_getitem. by rewrite Hentry, Himports.
Qed.

End Walk.

(** C1, on the code.  For the manifest of the specification, entry a
    importing entry b, [generate_vite_asset] asked for a returns no tags:
    it raises the [TypeError] of the call that the walk makes for the
    import b, whatever the budget from two calls on.  Asked for b, which
    imports nothing, it returns the links of a.css and b.css, each once,
    and the script tag. *)
Theorem generate_vite_asset_with_import_raises (n : nat) :
  (generate_vite_asset (H:=plain_host) (S (S n)) "a" "default" []
     production_process).1
  = Raise css_files_missing_argument
  /\ (generate_vite_asset (H:=plain_host) (S n) "b" "default" []
        production_process).1
     = Ok (join newline
             [ _generate_stylesheet_tag "/static/a.css";
               _generate_stylesheet_tag "/static/b.css";
               _generate_script_tag "/static/b.456.js"
                 [("type", "module"); ("crossorigin", "")] ]).
Proof. split; by vm_compute. Qed.

(** ** Development mode *)

(** C2, on the code.  In development mode, once the static URL of the
    configuration is obtained, [generate_vite_asset_url] raises the
    [TypeError] of its call of [_generate_vite_server_url], which passes
    the path and the configuration and leaves the static URL out; it
    returns no URL. *)
Theorem generate_vite_asset_url_dev_raises `{Host} (path key : string)
    (w w1 : world) (config : DjangoViteConfig) (static_url : string) :
  _configs w !! key = Some config ->
  dev_mode config = true ->
  _get_static_url key w = (Ok static_url, w1) ->
  generate_vite_asset_url path key w
  = (Raise server_url_missing_argument, w1).
Proof.
  intros Hc Hdev Hsu. unfold generate_vite_asset_url.
  rewrite (bind_Ok _ _ w config w) by by rewrite _get_config_run, Hc.
  by rewrite (bind_Ok _ _ _ _ _ Hsu), Hdev.
Qed.

Lemma generate_vite_asset_url_dev_raises_witness :
  generate_vite_asset_url (H:=plain_host) "src/main.js" "default" dev_process
  = (Raise server_url_missing_argument,
     (_get_static_url (H:=plain_host) "default" dev_process).2).
Proof.
  apply (generate_vite_asset_url_dev_raises (H:=plain_host) "src/main.js"
           "default" dev_process _ dev_config "/static/"); by vm_compute.
Defined.

(** The calls with all three arguments give the URL on the development
    server: [generate_vite_asset] returns a script tag for it. *)
Lemma generate_vite_asset_dev `{Host} fuel path key kwargs w w1 config
    static_url :
  _configs w !! key = Some config ->
  dev_mode config = true ->
  _get_static_url key w = (Ok static_url, w1) ->
  generate_vite_asset fuel path key kwargs w
  = (Ok (_generate_script_tag
           (urljoin
              (dev_server_protocol config +:+ "://"
                 +:+ dev_server_host config +:+ ":"
                 +:+ pretty (dev_server_port config))
              (urljoin static_url path))
           [("type", "module")]), w1).
Proof.
  intros Hc Hdev Hsu. unfold generate_vite_asset.
  rewrite (bind_Ok _ _ w config w) by by rewrite _get_config_run, Hc.
  by rewrite (bind_Ok _ _ _ _ _ Hsu), Hdev.
Qed.

(** C3, on the code.  In development mode [generate_vite_legacy_polyfills]
    loads the manifest before it looks at the mode: when the load raises,
    the generator raises the same exception and returns no string.
    [generate_vite_legacy_asset] looks at the mode first and returns the
    empty string in the same process. *)
Theorem generate_vite_legacy_polyfills_dev_raises `{Host} (path key : string)
    (kwargs : dict string) (w w1 : world) (config : DjangoViteConfig)
    (e : exn) :
  _configs w !! key = Some config ->
  dev_mode config = true ->
  _get_manifest key w = (Raise e, w1) ->
  generate_vite_legacy_polyfills key kwargs w = (Raise e, w1)
  /\ forall static_url w2,
       _get_static_url key w = (Ok static_url, w2) ->
       generate_vite_legacy_asset path key kwargs w = (Ok "", w2).
Proof.
  intros Hc Hdev Hm. split.
  - unfold generate_vite_legacy_polyfills.
    rewrite (bind_Ok _ _ w config w) by by rewrite _get_config_run, Hc.
    by rewrite (bind_Raise _ _ _ _ _ Hm).
  - intros static_url w2 Hsu. unfold generate_vite_legacy_asset.
    rewrite (bind_Ok _ _ w config w) by by rewrite _get_config_run, Hc.
    by rewrite (bind_Ok _ _ _ _ _ Hsu), Hdev.
Qed.

Lemma generate_vite_legacy_polyfills_dev_raises_witness :
  generate_vite_legacy_polyfills (H:=plain_host) "default" [] dev_process
  = (Raise (cannot_read (PurePath "assets/manifest.json")
              (no_such_file (PurePath "assets/manifest.json"))),
     log_open "assets/manifest.json" dev_process)
  /\ forall static_url w2,
       _get_static_url (H:=plain_host) "default" dev_process
       = (Ok static_url, w2) ->
       generate_vite_legacy_asset (H:=plain_host) "src/main-legacy.js"
         "default" [] dev_process = (Ok "", w2).
Proof.
  apply (generate_vite_legacy_polyfills_dev_raises (H:=plain_host)
           "src/main-legacy.js" "default" [] dev_process _ dev_config);
    by vm_compute.
Defined.

(** ** The class statement of the manifest entries *)

(** C4, on the code.  The default written for isEntry is the name false,
    which neither the module nor the builtins bind: the class body raises
    [NameError] when it runs, so there is no default to construct an entry
    with.  The boolean is spelled False. *)
Theorem DjangoViteManifest_isEntry_default_unbound :
  Scope.class_body Scope.DjangoViteManifest_defaults
  = Raise (NameError "false")
  /\ Scope.field_default "isEntry" = Raise (NameError "false")
  /\ Scope.eval (Scope.EName "False") = Ok (Scope.VBool false).
Proof. by vm_compute. Qed.

(** ** Invariants that every call keeps *)

Section Frames.
Context `{Host}.

(** [_get_manifest] writes the manifest cache and the list of opened
    files, nothing else. *)
Lemma get_manifest_frame key w :
  django_settings (_get_manifest key w).2 = django_settings w
  /\ disk (_get_manifest key w).2 = disk w
  /\ _configs (_get_manifest key w).2 = _configs w
  /\ _static_urls (_get_manifest key w).2 = _static_urls w.
Proof.
  destruct (monotone_get_manifest key w) as [Hs Hd Hc _ _ _].
  repeat split; try done.
  destruct (_manifests w !! key) as [m|] eqn:Hm.
  - by rewrite (_get_manifest_hit _ _ _ Hm).
  - rewrite _get_manifest_miss by done.
    destruct (parse_manifest_keeps_caches key w) as [_ Hkeep].
    by destruct (_parse_manifest key w) as [[| |] ?].
Qed.

(** [_get_static_url] writes the cache of static URLs, nothing else. *)
Lemma get_static_url_frame key w :
  django_settings (_get_static_url key w).2 = django_settings w
  /\ disk (_get_static_url key w).2 = disk w
  /\ _configs (_get_static_url key w).2 = _configs w
  /\ _manifests (_get_static_url key w).2 = _manifests w
  /\ opened (_get_static_url key w).2 = opened w.
Proof.
  destruct (_static_urls w !! key) as [u|] eqn:Hu.
  - by rewrite (_get_static_url_hit _ _ _ Hu).
  - rewrite _get_static_url_miss by done. cbv zeta.
    destruct (_configs w !! key); [| done]. by destruct (last_char _).
Qed.

End Frames.

Section Preserves.
Context `{Host} (I : world -> Prop).

Lemma preserves_ret {A} (a : A) : preserves I (ret a).
Proof. by intros w. Qed.

Lemma preserves_raise {A} (e : exn) : preserves I (raise (A:=A) e).
Proof. by intros w. Qed.

Lemma preserves_out_of_fuel {A} : preserves I (out_of_fuel (A:=A)).
Proof. by intros w. Qed.

Lemma preserves_lift {A} (o : outcome A) : preserves I (lift o).
Proof. by intros w. Qed.

Lemma preserves_gets {A} (f : world -> A) : preserves I (gets f).
Proof. by intros w. Qed.

Lemma preserves_bind {A B} (m : M A) (k : A -> M B) :
  preserves I m -> (forall a, preserves I (k a)) -> preserves I (bind m k).
Proof.
  intros Hm Hk w HI. unfold bind. specialize (Hm w HI).
  destruct (m w) as [[a| |] w']; simpl in *; [by apply Hk | done | done].
Qed.

Lemma preserves_for_each {A S} (xs : list A) (body : A -> S -> M S) acc :
  (forall x s, preserves I (body x s)) ->
  preserves I (for_each xs body acc).
Proof.
  intros Hbody. revert acc. induction xs as [|x xs IH]; intros acc; simpl.
  - apply preserves_ret.
  - apply preserves_bind; [apply Hbody | intros; apply IH].
Qed.

End Preserves.

(** An invariant that the two cache methods keep for a configuration name
    is kept by every generator called with that name. *)
Section PreservesAt.
Context `{Host} (I : world -> Prop) (key : string).
Hypothesis static_url_keeps : preserves I (_get_static_url key).
Hypothesis manifest_keeps : preserves I (_get_manifest key).

Lemma preserves_get_config config_key : preserves I (_get_config config_key).
Proof.
  intros w HI. rewrite _get_config_run.
  by destruct (_configs w !! config_key).
Qed.

Ltac preserves_step :=
  first
    [ apply preserves_ret | apply preserves_raise | apply preserves_lift
    | apply preserves_gets | apply preserves_out_of_fuel
    | apply preserves_get_config | apply static_url_keeps
    | apply manifest_keeps
    | apply preserves_bind; [| intros ?]
    | apply preserves_for_each; intros ? ?
    | progress cbv zeta
    | match goal with
      | |- preserves _ (match ?x with _ => _ end) => destruct x
      end ].

(** The call of the walk by itself does not reach the caches. *)
Lemma preserves_css_files_short fuel import_path processed :
  preserves I
    (_generate_css_files_of_asset fuel (CssArgs2 import_path processed)).
Proof. destruct fuel; [apply preserves_out_of_fuel | apply preserves_raise]. Qed.

Lemma preserves_css_files fuel path processed :
  preserves I
    (_generate_css_files_of_asset fuel (CssArgs3 path key processed)).
Proof using static_url_keeps manifest_keeps.
  destruct fuel as [|fuel]; [apply preserves_out_of_fuel |].
  cbn [_generate_css_files_of_asset]. repeat preserves_step.
  apply preserves_css_files_short.
Qed.

Lemma preserves_generate_vite_asset fuel path kwargs :
  preserves I (generate_vite_asset fuel path key kwargs).
Proof using static_url_keeps manifest_keeps.
  unfold generate_vite_asset, not_in_manifest, computed_manifest_path.
  repeat preserves_step. apply preserves_css_files.
Qed.

Lemma preserves_generate_vite_asset_url path :
  preserves I (generate_vite_asset_url path key).
Proof using static_url_keeps manifest_keeps.
  unfold generate_vite_asset_url, not_in_manifest, computed_manifest_path.
  repeat preserves_step.
Qed.

Lemma preserves_generate_vite_legacy_polyfills kwargs :
  preserves I (generate_vite_legacy_polyfills key kwargs).
Proof using static_url_keeps manifest_keeps.
  unfold generate_vite_legacy_polyfills, computed_manifest_path.
  repeat preserves_step.
Qed.

Lemma preserves_generate_vite_legacy_asset path kwargs :
  preserves I (generate_vite_legacy_asset path key kwargs).
Proof using static_url_keeps manifest_keeps.
  unfold generate_vite_legacy_asset, not_in_manifest,
    computed_manifest_path.
  repeat preserves_step.
Qed.

Lemma preserves_generate_vite_ws_client :
  preserves I (generate_vite_ws_client key).
Proof using static_url_keeps.
  unfold generate_vite_ws_client. repeat preserves_step.
Qed.

End PreservesAt.

(** So an invariant that the two cache methods keep for every name is
    kept by every history of calls. *)
Section PreservesAll.
Context `{Host} (I : world -> Prop).
Hypothesis static_url_keeps : forall key, preserves I (_get_static_url key).
Hypothesis manifest_keeps : forall key, preserves I (_get_manifest key).

Lemma preserves_after c w : I w -> I (after c w).
Proof using static_url_keeps manifest_keeps.
  destruct c; simpl.
  - apply manifest_keeps.
  - apply static_url_keeps.
  - by apply preserves_generate_vite_asset.
  - by apply preserves_generate_vite_asset_url.
  - by apply preserves_generate_vite_legacy_polyfills.
  - by apply preserves_generate_vite_legacy_asset.
  - by apply preserves_generate_vite_ws_client.
Qed.

Lemma preserves_after_all cs w : I w -> I (after_all cs w).
Proof using static_url_keeps manifest_keeps.
  revert w. induction cs as [|c cs IH]; intros w HI; simpl; [done |].
  apply IH. by apply preserves_after.
Qed.

End PreservesAll.

Section InvariantsKept.
Context `{Host}.

Lemma static_urls_normalised_get_static_url key :
  preserves static_urls_normalised (_get_static_url key).
Proof.
  intros w HI. destruct (_static_urls w !! key) as [u|] eqn:Hu.
  { by rewrite (_get_static_url_hit _ _ _ Hu). }
  rewrite _get_static_url_miss by done. cbv zeta.
  destruct (_configs w !! key) as [config|] eqn:Hc; [| done].
  destruct (last_char _) as [c|] eqn:Hlast; [| done].
  intros key' u'. simpl. destruct (decide (key = key')) as [<-|Hne].
  - rewrite lookup_insert_eq. intros [= <-]. by exists config, c.
  - rewrite lookup_insert_ne by done. apply HI.
Qed.

Lemma static_urls_normalised_get_manifest key :
  preserves static_urls_normalised (_get_manifest key).
Proof.
  intros w HI key' u'.
  destruct (get_manifest_frame key w) as (-> & _ & -> & ->). apply HI.
Qed.

Lemma manifests_from_disk_get_static_url key :
  preserves manifests_from_disk (_get_static_url key).
Proof.
  intros w HI key' m'.
  destruct (get_static_url_frame key w) as (-> & -> & -> & -> & _).
  apply HI.
Qed.

Lemma manifests_from_disk_get_manifest key :
  preserves manifests_from_disk (_get_manifest key).
Proof.
  intros w HI. destruct (_manifests w !! key) as [m|] eqn:Hm.
  { by rewrite (_get_manifest_hit _ _ _ Hm). }
  rewrite _get_manifest_miss, _parse_manifest_run by done.
  destruct (_configs w !! key) as [config|] eqn:Hc; [| done].
  destruct (get_computed_manifest_path _ config) as [p| |] eqn:Hp;
    [| done | done].
  destruct (disk w !! fspath p) as [[items|error]|] eqn:Hfile;
    [| intros key' m'; simpl; apply HI ..].
  intros key' m'. simpl. destruct (decide (key = key')) as [<-|Hne].
  - rewrite lookup_insert_eq. intros [= <-]. by exists config, p, items.
  - rewrite lookup_insert_ne by done. apply HI.
Qed.

Lemma opened_are_manifests_get_static_url key :
  preserves opened_are_manifests (_get_static_url key).
Proof.
  intros w HI name.
  destruct (get_static_url_frame key w) as (-> & _ & -> & _ & ->).
  apply HI.
Qed.

Lemma opened_are_manifests_get_manifest key :
  preserves opened_are_manifests (_get_manifest key).
Proof.
  intros w HI. destruct (_manifests w !! key) as [m|] eqn:Hm.
  { by rewrite (_get_manifest_hit _ _ _ Hm). }
  rewrite _get_manifest_miss, _parse_manifest_run by done.
  destruct (_configs w !! key) as [config|] eqn:Hc; [| done].
  destruct (get_computed_manifest_path _ config) as [p| |] eqn:Hp;
    [| done | done].
  assert (opened_are_manifests (log_open (fspath p) w)) as Hlog.
  { intros name. simpl. intros [Hold | ->%list_elem_of_singleton]%elem_of_app.
    - by apply HI.
    - by exists key, config, p. }
  by destruct (disk w !! fspath p) as [[items|error]|].
Qed.

End InvariantsKept.

(** X1.  Every static URL in the cache belongs to a registered
    configuration and is the joined URL of that configuration with a slash
    behind it when it had none: this holds for the fresh singleton, any
    history of calls keeps it, and it makes every cached static URL end
    with a slash. *)
Theorem static_urls_always_normalised `{Host} :
  (forall s files configs,
     static_urls_normalised (instance s files configs))
  /\ (forall w cs,
        static_urls_normalised w -> static_urls_normalised (after_all cs w))
  /\ (forall w key u,
        static_urls_normalised w -> _static_urls w !! key = Some u ->
        ends_with_slash u = true).
Proof.
  split; [| split].
  - intros s files configs key u. simpl. by rewrite lookup_empty.
  - intros w cs. apply preserves_after_all.
    + apply static_urls_normalised_get_static_url.
    + apply static_urls_normalised_get_manifest.
  - intros w key u HI Hu. destruct (HI key u Hu) as (config & c & _ & Hc & ->).
    unfold with_trailing_slash. case_decide as Hslash.
    + subst c. unfold ends_with_slash. by rewrite Hc, bool_decide_true.
    + apply ends_with_slash_app.
Qed.

(** X2.  Every manifest in the cache belongs to a registered configuration
    and holds the entries of the file at the manifest path of that
    configuration, as the disk has it: this holds for the fresh singleton
    and any history of calls keeps it. *)
Theorem manifests_always_from_disk `{Host} :
  (forall s files configs, manifests_from_disk (instance s files configs))
  /\ (forall w cs,
        manifests_from_disk w -> manifests_from_disk (after_all cs w)).
Proof.
  split.
  - intros s files configs key m. simpl. by rewrite lookup_empty.
  - intros w cs. apply preserves_after_all.
    + apply manifests_from_disk_get_static_url.
    + apply manifests_from_disk_get_manifest.
Qed.

(** X3.  The loader opens no file but manifests: every name it has passed
    to open is the manifest path of a registered configuration.  This holds
    for the fresh singleton and any history of calls keeps it. *)
Theorem only_manifests_are_opened `{Host} :
  (forall s files configs, opened_are_manifests (instance s files configs))
  /\ (forall w cs,
        opened_are_manifests w -> opened_are_manifests (after_all cs w)).
Proof.
  split.
  - intros s files configs name. simpl. by intros ?%elem_of_nil.
  - intros w cs. apply preserves_after_all.
    + apply opened_are_manifests_get_static_url.
    + apply opened_are_manifests_get_manifest.
Qed.

(** X4.  No history of calls writes the settings, the disk or the
    registered configurations; an entry of either cache, once there, stays
    with the same value; and the list of opened files only grows at its
    end. *)
Theorem calls_only_extend_the_process `{Host} (cs : list call) (w : world) :
  django_settings (after_all cs w) = django_settings w
  /\ disk (after_all cs w) = disk w
  /\ _configs (after_all cs w) = _configs w
  /\ (forall key m,
        _manifests w !! key = Some m ->
        _manifests (after_all cs w) !! key = Some m)
  /\ (forall key u,
        _static_urls w !! key = Some u ->
        _static_urls (after_all cs w) !! key = Some u)
  /\ exists more, opened (after_all cs w) = opened w ++ more.
Proof.
  destruct (extends_after_all cs w) as [Hs Hd Hc Hm Hu Ho].
  repeat split; try done.
  - intros key m Hkey. by eapply lookup_weaken.
  - intros key u Hkey. by eapply lookup_weaken.
Qed.

(** ** Unregistered configurations *)

(** X5.  For a name under which no configuration is registered every
    generator raises the [RuntimeError] that names the configuration, and
    leaves the process as it is: nothing is cached and no file is opened. *)
Theorem unregistered_configuration_raises `{Host} (key : string) (w : world) :
  _configs w !! key = None ->
  exists msg,
    msg = "Cannot find " +:+ dquote +:+ key +:+ dquote +:+ " configuration"
    /\ str_in key msg = true
    /\ (forall fuel path kwargs,
          generate_vite_asset fuel path key kwargs w
          = (Raise (RuntimeError msg), w))
    /\ (forall path,
          generate_vite_asset_url path key w = (Raise (RuntimeError msg), w))
    /\ (forall kwargs,
          generate_vite_legacy_polyfills key kwargs w
          = (Raise (RuntimeError msg), w))
    /\ (forall path kwargs,
          generate_vite_legacy_asset path key kwargs w
          = (Raise (RuntimeError msg), w))
    /\ generate_vite_ws_client key w = (Raise (RuntimeError msg), w).
Proof.
  intros Hc. eexists. split; [done |].
  assert (_get_config key w
          = (Raise (RuntimeError ("Cannot find " +:+ dquote +:+ key
                                    +:+ dquote +:+ " configuration")), w))
    as Hraise by by rewrite _get_config_run, Hc.
  split.
  { rewrite <- (append_assoc "Cannot find " dquote).
    apply str_in_middle. }
  repeat split; intros;
    unfold generate_vite_asset, generate_vite_asset_url,
      generate_vite_legacy_polyfills, generate_vite_legacy_asset,
      generate_vite_ws_client;
    by rewrite (bind_Raise _ _ _ _ _ Hraise).
Qed.

Lemma unregistered_configuration_raises_witness :
  exists msg,
    msg = "Cannot find " +:+ dquote +:+ "admin" +:+ dquote
            +:+ " configuration"
    /\ str_in "admin" msg = true
    /\ (forall fuel path kwargs,
          generate_vite_asset (H:=plain_host) fuel path "admin" kwargs
            production_process
          = (Raise (RuntimeError msg), production_process))
    /\ (forall path,
          generate_vite_asset_url (H:=plain_host) path "admin"
            production_process
          = (Raise (RuntimeError msg), production_process))
    /\ (forall kwargs,
          generate_vite_legacy_polyfills (H:=plain_host) "admin" kwargs
            production_process
          = (Raise (RuntimeError msg), production_process))
    /\ (forall path kwargs,
          generate_vite_legacy_asset (H:=plain_host) path "admin" kwargs
            production_process
          = (Raise (RuntimeError msg), production_process))
    /\ generate_vite_ws_client (H:=plain_host) "admin" production_process
       = (Raise (RuntimeError msg), production_process).
Proof.
  apply (unregistered_configuration_raises (H:=plain_host) "admin"
           production_process).
  by vm_compute.
Defined.

(** ** The cache of static URLs *)

Lemma get_static_url_Ok_cached `{Host} key w u w1 :
  _get_static_url key w = (Ok u, w1) -> _static_urls w1 !! key = Some u.
Proof.
  intros Hrun. destruct (_static_urls w !! key) as [u0|] eqn:Hu0.
  - rewrite (_get_static_url_hit _ _ _ Hu0) in Hrun.
    by injection Hrun as <- <-.
  - rewrite _get_static_url_miss in Hrun by done. cbv zeta in Hrun.
    destruct (_configs w !! key); [| done].
    destruct (last_char _); [| done].
    injection Hrun as <- <-. simpl. apply lookup_insert_eq.
Qed.

(** X6.  Once [_get_static_url] has returned for a configuration name, the
    URL is in the cache and after any further calls on the loader a call
    with the same name returns that same string and leaves the process as
    it is.  A call that raises leaves the process as it is, with no entry
    for the name. *)
Theorem get_static_url_caches_success_only `{Host} (key : string)
    (w : world) :
  (forall u w1, _get_static_url key w = (Ok u, w1) ->
     _static_urls w1 !! key = Some u
     /\ forall cs, _get_static_url key (after_all cs w1)
                   = (Ok u, after_all cs w1))
  /\ (forall e w1, _get_static_url key w = (Raise e, w1) ->
        w1 = w /\ _static_urls w !! key = None).
Proof.
  split.
  - intros u w1 Hrun.
    assert (_static_urls w1 !! key = Some u) as Hu
      by by eapply get_static_url_Ok_cached.
    split; [done |]. intros cs. apply _get_static_url_hit.
    pose proof (extends_after_all cs w1) as [_ _ _ _ Hsub _].
    by eapply lookup_weaken.
  - intros e w1 Hrun. destruct (_static_urls w !! key) as [u0|] eqn:Hu0.
    { by rewrite (_get_static_url_hit _ _ _ Hu0) in Hrun. }
    split; [| done]. rewrite _get_static_url_miss in Hrun by done.
    cbv zeta in Hrun. destruct (_configs w !! key); [| by injection Hrun].
    destruct (last_char _); [done | by injection Hrun].
Qed.

(** ** No way back from the caches *)

(** X7.  A manifest that was loaded is not loaded again when its file
    changes: after a successful [_get_manifest], whatever further calls are
    made and whatever is then written to whatever file, the call returns
    the manifest it returned before and opens nothing. *)
Theorem cached_manifest_ignores_the_disk `{Host} (key : string)
    (w w1 : world) (m : dict DjangoViteManifest) (cs : list call)
    (p : string) (f : disk_file) :
  _get_manifest key w = (Ok m, w1) ->
  _get_manifest key (write_file p f (after_all cs w1))
  = (Ok m, write_file p f (after_all cs w1)).
Proof.
  intros Hrun. apply _get_manifest_hit. simpl.
  pose proof (extends_after_all cs w1) as [_ _ _ Hsub _ _].
  eapply lookup_weaken; [| done]. by eapply get_manifest_Ok_cached.
Qed.

Lemma cached_manifest_ignores_the_disk_witness :
  _get_manifest (H:=plain_host) "default"
    (write_file "/srv/static/manifest.json" (Broken (OSError "gone"))
       (after_all (H:=plain_host) [Call_generate_vite_asset_url "b" "default"]
          (_get_manifest (H:=plain_host) "default" production_process).2))
  = (Ok manifest_ab,
     write_file "/srv/static/manifest.json" (Broken (OSError "gone"))
       (after_all (H:=plain_host) [Call_generate_vite_asset_url "b" "default"]
          (_get_manifest (H:=plain_host) "default" production_process).2)).
Proof.
  apply (cached_manifest_ignores_the_disk (H:=plain_host) "default"
           production_process). by vm_compute.
Defined.

(** ** Calls on a warm cache *)

(** X8.  When the static URL and the manifest of a configuration are both
    cached, no generator called with that configuration changes the
    process: nothing more is cached and no file is opened, whether the
    generator returns or raises. *)
Theorem warm_generators_leave_the_process `{Host} (key : string) (w : world)
    (u : string) (m : dict DjangoViteManifest) (fuel : nat) (path : string)
    (kwargs : dict string) :
  _static_urls w !! key = Some u ->
  _manifests w !! key = Some m ->
  (generate_vite_asset fuel path key kwargs w).2 = w
  /\ (generate_vite_asset_url path key w).2 = w
  /\ (generate_vite_legacy_polyfills key kwargs w).2 = w
  /\ (generate_vite_legacy_asset path key kwargs w).2 = w
  /\ (generate_vite_ws_client key w).2 = w.
Proof.
  intros Hu Hm.
  assert (preserves (fun w' => w' = w) (_get_static_url key)) as Hstatic.
  { intros w' ->. by rewrite (_get_static_url_hit _ _ _ Hu). }
  assert (preserves (fun w' => w' = w) (_get_manifest key)) as Hmanifest.
  { intros w' ->. by rewrite (_get_manifest_hit _ _ _ Hm). }
  repeat split.
  - by apply (preserves_generate_vite_asset _ key Hstatic Hmanifest).
  - by apply (preserves_generate_vite_asset_url _ key Hstatic Hmanifest).
  - by apply (preserves_generate_vite_legacy_polyfills _ key Hstatic
                Hmanifest).
  - by apply (preserves_generate_vite_legacy_asset _ key Hstatic Hmanifest).
  - by apply (preserves_generate_vite_ws_client _ key Hstatic).
Qed.

Lemma warm_generators_leave_the_process_witness :
  (generate_vite_asset (H:=plain_host) 3 "a" "default" []
     production_process_warm).2 = production_process_warm
  /\ (generate_vite_asset_url (H:=plain_host) "a" "default"
        production_process_warm).2 = production_process_warm
  /\ (generate_vite_legacy_polyfills (H:=plain_host) "default" []
        production_process_warm).2 = production_process_warm
  /\ (generate_vite_legacy_asset (H:=plain_host) "a" "default" []
        production_process_warm).2 = production_process_warm
  /\ (generate_vite_ws_client (H:=plain_host) "default"
        production_process_warm).2 = production_process_warm.
Proof.
  apply (warm_generators_leave_the_process (H:=plain_host) "default"
           production_process_warm "/static/" manifest_ab 3 "a" []);
    by vm_compute.
Defined.

(** ** Development mode and the manifest *)

Section DevMode.
Context `{Host}.

(** In development mode three of the generators stop after the static
    URL. *)
Lemma dev_generators_stop_after_static_url key w config fuel path kwargs :
  _configs w !! key = Some config ->
  dev_mode config = true ->
  (generate_vite_asset fuel path key kwargs w).2 = (_get_static_url key w).2
  /\ (generate_vite_asset_url path key w).2 = (_get_static_url key w).2
  /\ (generate_vite_legacy_asset path key kwargs w).2
     = (_get_static_url key w).2.
Proof.
  intros Hc Hdev.
  unfold generate_vite_asset, generate_vite_asset_url,
    generate_vite_legacy_asset.
  rewrite !(bind_Ok _ _ w config w) by by rewrite _get_config_run, Hc.
  unfold bind. by destruct (_get_static_url key w) as [[u| |] w1];
    rewrite ?Hdev.
Qed.

End DevMode.

(** X9.  In development mode [generate_vite_asset],
    [generate_vite_asset_url] and [generate_vite_legacy_asset] never touch
    the manifest: the manifest cache and the list of opened files are as
    before the call, whether a manifest file exists or not. *)
Theorem dev_mode_never_loads_the_manifest `{Host} (key : string) (w : world)
    (config : DjangoViteConfig) (fuel : nat) (path : string)
    (kwargs : dict string) :
  _configs w !! key = Some config ->
  dev_mode config = true ->
  (_manifests (generate_vite_asset fuel path key kwargs w).2 = _manifests w
   /\ opened (generate_vite_asset fuel path key kwargs w).2 = opened w)
  /\ (_manifests (generate_vite_asset_url path key w).2 = _manifests w
      /\ opened (generate_vite_asset_url path key w).2 = opened w)
  /\ (_manifests (generate_vite_legacy_asset path key kwargs w).2
      = _manifests w
      /\ opened (generate_vite_legacy_asset path key kwargs w).2 = opened w).
Proof.
  intros Hc Hdev.
  destruct (dev_generators_stop_after_static_url key w config fuel path
              kwargs Hc Hdev) as (-> & -> & ->).
  by destruct (get_static_url_frame key w) as (_ & _ & _ & -> & ->).
Qed.

Lemma dev_mode_never_loads_the_manifest_witness :
  (_manifests (generate_vite_asset (H:=plain_host) 2 "src/main.js" "default"
                 [] dev_process).2 = _manifests dev_process
   /\ opened (generate_vite_asset (H:=plain_host) 2 "src/main.js" "default"
                [] dev_process).2 = opened dev_process)
  /\ (_manifests (generate_vite_asset_url (H:=plain_host) "src/main.js"
                    "default" dev_process).2 = _manifests dev_process
      /\ opened (generate_vite_asset_url (H:=plain_host) "src/main.js"
                   "default" dev_process).2 = opened dev_process)
  /\ (_manifests (generate_vite_legacy_asset (H:=plain_host) "src/main.js"
                    "default" [] dev_process).2 = _manifests dev_process
      /\ opened (generate_vite_legacy_asset (H:=plain_host) "src/main.js"
                   "default" [] dev_process).2 = opened dev_process).
Proof.
  apply (dev_mode_never_loads_the_manifest (H:=plain_host) "default"
           dev_process dev_config 2 "src/main.js" []); by vm_compute.
Defined.

(** ** Stylesheets of an entry *)

Section CssLoop.
Context `{Host}.

Lemma filter_not_in_snoc (processed l : list string) (c : string) :
  filter (fun x => x ∉ processed ++ [c]) l
  = filter (fun x => x ∉ processed) (filter (fun x => x <> c) l).
Proof.
  rewrite list_filter_filter. apply list_filter_iff. intros x.
  rewrite not_elem_of_app, list_elem_of_singleton. tauto.
Qed.

Lemma css_loop_first_occurrences static_url css_paths tags processed :
  css_loop static_url css_paths (tags, processed)
  = (tags ++ ((fun c => _generate_stylesheet_tag (urljoin static_url c))
                <$> filter (fun c => c ∉ processed)
                      (first_occurrences css_paths)),
     processed ++ css_paths).
Proof.
  unfold css_loop. revert tags processed.
  induction css_paths as [|c cs IH]; intros tags processed.
  - simpl. by rewrite !app_nil_r.
  - cbn [foldl fst snd first_occurrences]. rewrite IH, filter_not_in_snoc.
    rewrite <- !app_assoc. destruct (decide (c ∈ processed)) as [Hin|Hnotin].
    + by rewrite filter_cons_False by tauto.
    + rewrite filter_cons_True by done. by rewrite fmap_cons, <- app_assoc.
Qed.

Lemma first_occurrences_elem_of l x : x ∈ first_occurrences l <-> x ∈ l.
Proof.
  induction l as [|c l IH]; [done |]. cbn [first_occurrences].
  rewrite !elem_of_cons, list_elem_of_filter, IH.
  destruct (decide (x = c)); naive_solver.
Qed.

Lemma first_occurrences_NoDup l : NoDup (first_occurrences l).
Proof.
  induction l as [|c l IH]; [apply NoDup_nil_2 |]. cbn [first_occurrences].
  apply NoDup_cons_2; [| by apply NoDup_filter].
  rewrite list_elem_of_filter. naive_solver.
Qed.

Lemma first_occurrences_sublist l : first_occurrences l `sublist_of` l.
Proof.
  induction l as [|c l IH]; [done |]. cbn [first_occurrences].
  apply sublist_skip. etrans; [apply sublist_filter | done].
Qed.

(** A path stands among the first occurrences where it occurs first:
    behind the first occurrences of the part before it. *)
Lemma first_occurrences_split before c after :
  c ∉ before ->
  first_occurrences (before ++ c :: after)
  = first_occurrences before
    ++ c :: filter (fun x => x ∉ before ++ [c]) (first_occurrences after).
Proof.
  induction before as [|b before IH]; intros Hc.
  - simpl. f_equal. apply list_filter_iff. intros x.
    rewrite list_elem_of_singleton. tauto.
  - apply not_elem_of_cons in Hc as [Hne Hc].
    cbn [app first_occurrences]. rewrite IH by done. f_equal.
    rewrite filter_app, filter_cons_True by done. do 2 f_equal.
    rewrite list_filter_filter. apply list_filter_iff. intros x.
    set_solver.
Qed.

Lemma filter_not_in_nil (l : list string) :
  filter (fun c => c ∉ []) l = l.
Proof.
  induction l as [|c l IH]; [done |].
  rewrite filter_cons_True by apply not_elem_of_nil. by rewrite IH.
Qed.

(** Among the new paths a path stands where it occurs first: the paths
    before it occur in the part of the list before that occurrence, the
    paths behind it in the part behind. *)
Lemma new_paths_order (processed l before : list string) c after :
  l = before ++ c :: after ->
  c ∉ before ->
  c ∉ processed ->
  exists paths_before paths_after,
    filter (fun c => c ∉ processed) (first_occurrences l)
    = paths_before ++ c :: paths_after
    /\ (forall x, x ∈ paths_before -> x ∈ before)
    /\ (forall x, x ∈ paths_after -> x ∈ after).
Proof.
  intros -> Hbefore Hprocessed.
  rewrite first_occurrences_split, filter_app, filter_cons_True by done.
  eexists _, _. split; [done |]. split; intros x.
  - rewrite list_elem_of_filter, first_occurrences_elem_of. tauto.
  - rewrite !list_elem_of_filter, first_occurrences_elem_of. tauto.
Qed.

End CssLoop.

(** X10.  For a manifest entry without imports
    [_generate_css_files_of_asset] returns one link per stylesheet of the
    entry that is not among the processed paths, for its first occurrence
    only and in the order of the entry, and leaves the processed paths
    followed by all stylesheets of the entry.  The order is given twice:
    the linked paths are the first occurrences of the stylesheets without
    the processed ones, and a path that occurs first at some place of the
    entry is linked behind paths from before that place and before paths
    from behind it.  A link is the link element with rel stylesheet and
    the URL as href. *)
Theorem css_files_of_leaf_entry `{Host} (n : nat) (path key : string)
    (processed : list string) (w w1 w2 : world) (static_url : string)
    (manifest : dict DjangoViteManifest) (entry : DjangoViteManifest) :
  _get_static_url key w = (Ok static_url, w1) ->
  _get_manifest key w1 = (Ok manifest, w2) ->
  dict_get path manifest = Some entry ->
  imports entry = [] ->
  exists paths,
    _generate_css_files_of_asset (S n) (CssArgs3 path key processed) w
    = (Ok ((fun c => _generate_stylesheet_tag (urljoin static_url c))
             <$> paths,
           processed ++ css entry), w2)
    /\ paths = filter (fun c => c ∉ processed)
                 (first_occurrences (css entry))
    /\ NoDup paths
    /\ (forall c, c ∈ paths <-> c ∈ css entry /\ c ∉ processed)
    /\ paths `sublist_of` css entry
    /\ (forall before c after,
          css entry = before ++ c :: after ->
          c ∉ before ->
          c ∉ processed ->
          exists paths_before paths_after,
            paths = paths_before ++ c :: paths_after
            /\ (forall x, x ∈ paths_before -> x ∈ before)
            /\ (forall x, x ∈ paths_after -> x ∈ after))
    /\ (forall href,
          _generate_stylesheet_tag href
          = "<link rel=" +:+ dquote +:+ "stylesheet" +:+ dquote
              +:+ " href=" +:+ dquote +:+ href +:+ dquote +:+ " />").
Proof.
  intros Hsu Hm Hentry Himports. eexists. split.
  { by rewrite (css_files_leaf _ _ _ _ _ _ _ _ _ _ Hsu Hm Hentry Himports),
      css_loop_first_occurrences. }
  split; [done |]. split; [apply NoDup_filter, first_occurrences_NoDup |].
  split.
  { intros c. rewrite list_elem_of_filter, first_occurrences_elem_of. tauto. }
  split.
  { etrans; [apply sublist_filter | apply first_occurrences_sublist]. }
  split; [| done]. intros before c after. apply new_paths_order.
Qed.

Lemma css_files_of_leaf_entry_witness :
  _generate_css_files_of_asset (H:=plain_host) 1
    (CssArgs3 "c" "default" ["z.css"]) repeated_css_process
  = (Ok ([ _generate_stylesheet_tag "/static/x.css";
           _generate_stylesheet_tag "/static/y.css" ],
         ["z.css"; "x.css"; "y.css"; "x.css"; "z.css"]),
     repeated_css_process_warm).
Proof.
  destruct (css_files_of_leaf_entry (H:=plain_host) 0 "c" "default"
              ["z.css"] repeated_css_process
              (_get_static_url (H:=plain_host) "default"
                 repeated_css_process).2
              repeated_css_process_warm "/static/" [("c", entry_repeated)]
              entry_repeated) as (paths & Hrun & -> & _);
    [by vm_compute ..|].
  exact Hrun.
Defined.

(** ** [generate_vite_asset] in production mode *)

(** X11.  In production mode, with the static URL and the manifest of the
    configuration obtained, [generate_vite_asset] raises for a path that is
    not in the manifest the [RuntimeError] whose message holds the path and
    the location of the manifest, and returns no tag.  The location exists
    whenever [STATIC_ROOT] is set and whenever this call loaded the
    manifest; for a manifest that was in the cache without a location the
    exception of computing it is raised in place of the [RuntimeError]. *)
Theorem generate_vite_asset_missing_path `{Host} (fuel : nat)
    (path key : string) (kwargs : dict string) (w w1 w2 : world)
    (config : DjangoViteConfig) (static_url : string)
    (manifest : dict DjangoViteManifest) :
  _configs w !! key = Some config ->
  dev_mode config = false ->
  _get_static_url key w = (Ok static_url, w1) ->
  _get_manifest key w1 = (Ok manifest, w2) ->
  dict_get path manifest = None ->
  match get_computed_manifest_path (django_settings w) config with
  | Ok location =>
      exists msg,
        generate_vite_asset fuel path key kwargs w
        = (Raise (RuntimeError msg), w2)
        /\ msg = "Cannot find " +:+ path +:+ " in Vite manifest at "
                   +:+ fspath location
        /\ str_in path msg = true
        /\ str_in (fspath location) msg = true
  | Raise e =>
      STATIC_ROOT (django_settings w) = None
      /\ _manifests w1 !! key = Some manifest
      /\ generate_vite_asset fuel path key kwargs w = (Raise e, w2)
  | OutOfFuel => False
  end.
Proof.
  intros Hc Hprod Hsu Hm Hpath.
  destruct (get_static_url_frame key w) as (Hs1 & _ & Hc1 & _).
  destruct (get_manifest_frame key w1) as (Hs2 & _).
  rewrite Hsu in Hs1, Hc1. rewrite Hm in Hs2. simpl in *.
  assert (django_settings w2 = django_settings w) as Hs by congruence.
  assert (generate_vite_asset fuel path key kwargs w
          = (msg <- not_in_manifest path config ;;
             raise (RuntimeError msg)) w2) as ->.
  { unfold generate_vite_asset.
    rewrite (bind_Ok _ _ w config w) by by rewrite _get_config_run, Hc.
    by rewrite (bind_Ok _ _ _ _ _ Hsu), Hprod, (bind_Ok _ _ _ _ _ Hm),
      Hpath. }
  pose proof (manifest_path_production (django_settings w) config Hprod)
    as Hroot.
  destruct (get_computed_manifest_path (django_settings w) config)
    as [location|e|] eqn:Hloc; [| | done].
  - eexists. split.
    { erewrite bind_Ok; [done |]. apply not_in_manifest_run.
      by rewrite Hs. }
    split; [done |]. split.
    + apply (str_in_middle "Cannot find ").
    + rewrite <- append_assoc, <- append_assoc. apply str_in_end.
  - destruct Hroot as [Hroot _]. split; [done |]. split.
    + apply (manifest_without_location_was_cached key w1 manifest w2 config
               e); [| done |]; congruence.
    + erewrite bind_Raise; [done |]. apply not_in_manifest_raises.
      by rewrite Hs.
Qed.

Lemma generate_vite_asset_missing_path_witness :
  exists msg,
    generate_vite_asset (H:=plain_host) 0 "c" "default" []
      production_process
    = (Raise (RuntimeError msg), production_process_warm)
    /\ msg = "Cannot find c in Vite manifest at /srv/static/manifest.json"
    /\ str_in "c" msg = true
    /\ str_in "/srv/static/manifest.json" msg = true.
Proof.
  apply (generate_vite_asset_missing_path (H:=plain_host) 0 "c" "default" []
           production_process
           (_get_static_url (H:=plain_host) "default" production_process).2
           production_process_warm
           (DjangoViteConfig_new (StrPath "assets")) "/static/" manifest_ab);
    by vm_compute.
Defined.

(** X12.  In production mode, for an entry of the manifest that imports
    nothing, [generate_vite_asset] returns, one per line, a link for every
    stylesheet of the entry, each once and in the order of their first
    occurrence, followed by the script tag of the file of the entry.  The
    order is given twice: the linked paths are the first occurrences of
    the stylesheets, and a path that occurs first at some place of the
    entry is linked behind paths from before that place and before paths
    from behind it.  The text of both kinds of tag is given. *)
Theorem generate_vite_asset_leaf_entry `{Host} (n : nat) (path key : string)
    (kwargs : dict string) (w w1 w2 : world) (config : DjangoViteConfig)
    (static_url : string) (manifest : dict DjangoViteManifest)
    (entry : DjangoViteManifest) :
  _configs w !! key = Some config ->
  dev_mode config = false ->
  _get_static_url key w = (Ok static_url, w1) ->
  _get_manifest key w1 = (Ok manifest, w2) ->
  dict_get path manifest = Some entry ->
  imports entry = [] ->
  exists paths,
    generate_vite_asset (S n) path key kwargs w
    = (Ok (join newline
             (((fun c => _generate_stylesheet_tag (urljoin static_url c))
                 <$> paths)
              ++ [_generate_script_tag (urljoin static_url (file entry))
                    (dict_update [("type", "module"); ("crossorigin", "")]
                       kwargs)])), w2)
    /\ paths = first_occurrences (css entry)
    /\ NoDup paths
    /\ (forall c, c ∈ paths <-> c ∈ css entry)
    /\ paths `sublist_of` css entry
    /\ (forall before c after,
          css entry = before ++ c :: after ->
          c ∉ before ->
          exists paths_before paths_after,
            paths = paths_before ++ c :: paths_after
            /\ (forall x, x ∈ paths_before -> x ∈ before)
            /\ (forall x, x ∈ paths_after -> x ∈ after))
    /\ (forall href,
          _generate_stylesheet_tag href
          = "<link rel=" +:+ dquote +:+ "stylesheet" +:+ dquote
              +:+ " href=" +:+ dquote +:+ href +:+ dquote +:+ " />")
    /\ (forall src attrs,
          _generate_script_tag src attrs
          = "<script "
              +:+ join " " ((fun kv => kv.1 +:+ "=" +:+ dquote +:+ kv.2
                                         +:+ dquote) <$> attrs)
              +:+ " src=" +:+ dquote +:+ src +:+ dquote +:+ "></script>").
Proof.
  intros Hc Hprod Hsu Hm Hentry Himports.
  assert (_static_urls w2 !! key = Some static_url) as Hu2.
  { pose proof (get_static_url_Ok_cached _ _ _ _ Hsu) as Hu1.
    destruct (get_manifest_frame key w1) as (_ & _ & _ & Heq).
    rewrite Hm in Heq. simpl in Heq. by rewrite Heq. }
  assert (_manifests w2 !! key = Some manifest) as Hm2
    by by eapply get_manifest_Ok_cached.
  assert (_generate_css_files_of_asset (S n) (CssArgs3 path key []) w2
          = (Ok ((fun c => _generate_stylesheet_tag (urljoin static_url c))
                   <$> first_occurrences (css entry), css entry), w2))
    as Hwalk.
  { rewrite (css_files_leaf n path key [] w2 w2 w2 static_url manifest
               entry), css_loop_first_occurrences, filter_not_in_nil;
      [done | by apply _get_static_url_hit | by apply _get_manifest_hit
       | done ..]. }
  eexists. split.
  { unfold generate_vite_asset.
    rewrite (bind_Ok _ _ w config w) by by rewrite _get_config_run, Hc.
    rewrite (bind_Ok _ _ _ _ _ Hsu), Hprod, (bind_Ok _ _ _ _ _ Hm), Hentry.
    cbv zeta. rewrite (bind_Ok _ _ _ _ _ Hwalk).
    unfold bind, lift, dict_getitem. by rewrite Hentry. }
  split; [done |]. split; [apply first_occurrences_NoDup |].
  split; [apply first_occurrences_elem_of |].
  split; [apply first_occurrences_sublist |].
  split; [| done]. intros before c after Hcss Hbefore.
  rewrite <- (filter_not_in_nil (first_occurrences (css entry))).
  apply new_paths_order; [done | done | apply not_elem_of_nil].
Qed.

Lemma generate_vite_asset_leaf_entry_witness :
  generate_vite_asset (H:=plain_host) 1 "c" "default" []
    repeated_css_process
  = (Ok (join newline
           [ _generate_stylesheet_tag "/static/x.css";
             _generate_stylesheet_tag "/static/y.css";
             _generate_stylesheet_tag "/static/z.css";
             _generate_script_tag "/static/c.789.js"
               [("type", "module"); ("crossorigin", "")] ]),
     repeated_css_process_warm).
Proof.
  destruct (generate_vite_asset_leaf_entry (H:=plain_host) 0 "c" "default"
              [] repeated_css_process
              (_get_static_url (H:=plain_host) "default"
                 repeated_css_process).2
              repeated_css_process_warm
              (DjangoViteConfig_new (StrPath "assets")) "/static/"
              [("c", entry_repeated)] entry_repeated)
    as (paths & Hrun & -> & _); [by vm_compute ..|].
  exact Hrun.
Defined.

(** ** [generate_vite_legacy_asset] in production mode *)



(** ** The client of the development server *)



(** ** [generate_vite_asset] in development mode *)



(** ** The location of the manifest *)

(** X16.  The manifest path of a configuration: a manifest path that is
    set (a path object, or a string that is not empty) is returned as it
    is in either mode; otherwise production mode gives manifest.json under
    the static root joined with the URL prefix when [STATIC_ROOT] is set,
    and development mode gives manifest.json under the assets path when
    that is a path object.  The method raises in two cases only, both
    with no manifest path set and both with a [TypeError]: in development
    mode when the assets path is a string, and in production mode when
    [STATIC_ROOT] is [None], as it is until the project sets it. *)
Theorem manifest_path_cases `{Host} (s : settings) (config : DjangoViteConfig) :
  (pathlike_truthy (manifest_path config) = true ->
   get_computed_manifest_path s config = Ok (manifest_path config))
  /\ (forall root,
        pathlike_truthy (manifest_path config) = false ->
        dev_mode config = false ->
        STATIC_ROOT s = Some root ->
        get_computed_manifest_path s config
        = Ok (PurePath (truediv (truediv (Path root)
                                   (static_url_prefix config))
                          "manifest.json")))
  /\ (forall a,
        pathlike_truthy (manifest_path config) = false ->
        dev_mode config = true ->
        assets_path config = PurePath a ->
        get_computed_manifest_path s config
        = Ok (PurePath (truediv a "manifest.json")))
  /\ ((exists e, get_computed_manifest_path s config = Raise e)
      <-> manifest_path config = StrPath ""
          /\ ((dev_mode config = true
               /\ exists a, assets_path config = StrPath a)
              \/ (dev_mode config = false /\ STATIC_ROOT s = None)))
  /\ (forall e,
        get_computed_manifest_path s config = Raise e ->
        exists msg, e = TypeError msg).
Proof.
  unfold get_computed_manifest_path, static_root, pathlike_truediv.
  split; [by intros -> |]. split; [by intros root -> -> -> |].
  split; [by intros a -> -> -> |]. split; [split |].
  - intros [e He]. destruct (manifest_path config) as [mp|mp] eqn:Hmp;
      simpl in He; [| done].
    case_decide as Hempty; [subst mp | done]. split; [done |].
    destruct (dev_mode config).
    + left. destruct (assets_path config) as [a|a] eqn:Ha; [| done]. eauto.
    + right. by destruct (STATIC_ROOT s).
  - intros (-> & [(-> & a & ->) | (-> & ->)]); simpl; eauto.
  - intros e He. repeat case_match; simplify_eq; eauto.
Qed.

(** ** Loading a manifest *)

(** X17.  For a registered configuration whose manifest path is computed,
    [_parse_manifest] opens the file at that path, once.  When the file
    holds a manifest it returns its entries; when the file is missing or
    cannot be read and decoded, it raises a [RuntimeError] whose message
    holds the path and the text of the underlying exception. *)
Theorem parse_manifest_reads_the_manifest_path `{Host} (key : string)
    (w : world) (config : DjangoViteConfig) (p : pathlike) :
  _configs w !! key = Some config ->
  get_computed_manifest_path (django_settings w) config = Ok p ->
  (_parse_manifest key w).2 = log_open (fspath p) w
  /\ match disk w !! fspath p with
     | Some (ManifestJson items) =>
         (_parse_manifest key w).1 = Ok (dict_update [] items)
     | other =>
         exists cause msg,
           cause = match other with
                   | Some (Broken error) => error
                   | _ => no_such_file p
                   end
           /\ (_parse_manifest key w).1 = Raise (RuntimeError msg)
           /\ msg = "Cannot read Vite manifest file at " +:+ fspath p
                      +:+ " : " +:+ str_of_exn cause
           /\ str_in (fspath p) msg = true
           /\ str_in (str_of_exn cause) msg = true
     end.
Proof.
  intros Hc Hp. rewrite _parse_manifest_run, Hc, Hp.
  assert (forall cause,
            str_in (fspath p)
              ("Cannot read Vite manifest file at " +:+ fspath p
                 +:+ " : " +:+ str_of_exn cause) = true
            /\ str_in (str_of_exn cause)
                 ("Cannot read Vite manifest file at " +:+ fspath p
                    +:+ " : " +:+ str_of_exn cause) = true) as Hmsg.
  { intros cause. split.
    - apply (str_in_middle "Cannot read Vite manifest file at ").
    - rewrite <- !append_assoc. apply str_in_end. }
  destruct (disk w !! fspath p) as [[items|error]|]; simpl.
  - done.
  - split; [done |]. eexists error, _.
    destruct (Hmsg error). by repeat split.
  - split; [done |]. eexists (no_such_file p), _.
    destruct (Hmsg (no_such_file p)). by repeat split.
Qed.

Lemma parse_manifest_reads_the_manifest_path_witness :
  (_parse_manifest (H:=plain_host) "default" dev_process).2
  = log_open "assets/manifest.json" dev_process
  /\ exists cause msg,
       cause = no_such_file (PurePath "assets/manifest.json")
       /\ (_parse_manifest (H:=plain_host) "default" dev_process).1
          = Raise (RuntimeError msg)
       /\ msg = "Cannot read Vite manifest file at assets/manifest.json : "
                  +:+ str_of_exn cause
       /\ str_in "assets/manifest.json" msg = true
       /\ str_in (str_of_exn cause) msg = true.
Proof.
  apply (parse_manifest_reads_the_manifest_path (H:=plain_host) "default"
           dev_process dev_config (PurePath "assets/manifest.json"));
    by vm_compute.
Defined.

(** X18.  In development mode, for a configuration with no manifest path
    set whose assets path is a string, loading the manifest raises a
    [TypeError], not the [RuntimeError] of the other failures: the path
    cannot be computed, and the handler that builds the message computes
    it again.  No file is opened, and [_get_manifest] and
    [generate_vite_legacy_polyfills] raise the same exception. *)
Theorem manifest_path_error_escapes `{Host} (key : string) (w : world)
    (config : DjangoViteConfig) (a : string) (kwargs : dict string) :
  _configs w !! key = Some config ->
  dev_mode config = true ->
  manifest_path config = StrPath "" ->
  assets_path config = StrPath a ->
  _manifests w !! key = None ->
  exists msg,
    _parse_manifest key w = (Raise (TypeError msg), w)
    /\ _get_manifest key w = (Raise (TypeError msg), w)
    /\ generate_vite_legacy_polyfills key kwargs w
       = (Raise (TypeError msg), w).
Proof.
  intros Hc Hdev Hmp Ha Hm. eexists.
  assert (_parse_manifest key w
          = (Raise (TypeError
                      "unsupported operand type(s) for /: 'str' and 'str'"),
             w)) as Hparse.
  { rewrite _parse_manifest_run, Hc.
    unfold get_computed_manifest_path, static_root.
    by rewrite Hmp, Hdev, Ha. }
  assert (_get_manifest key w
          = (Raise (TypeError
                      "unsupported operand type(s) for /: 'str' and 'str'"),
             w)) as Hget
    by by rewrite _get_manifest_miss, Hparse.
  split; [exact Hparse |]. split; [exact Hget |].
  unfold generate_vite_legacy_polyfills.
  rewrite (bind_Ok _ _ w config w) by by rewrite _get_config_run, Hc.
  by rewrite (bind_Raise _ _ _ _ _ Hget).
Qed.

Lemma manifest_path_error_escapes_witness :
  exists msg,
    _parse_manifest (H:=plain_host) "default" str_assets_process
    = (Raise (TypeError msg), str_assets_process)
    /\ _get_manifest (H:=plain_host) "default" str_assets_process
       = (Raise (TypeError msg), str_assets_process)
    /\ generate_vite_legacy_polyfills (H:=plain_host) "default" []
         str_assets_process
       = (Raise (TypeError msg), str_assets_process).
Proof.
  apply (manifest_path_error_escapes (H:=plain_host) "default"
           str_assets_process str_assets_config "assets" []); by vm_compute.
Defined.

(** ** Edges of the scan for the polyfills *)

Lemma str_in_empty (h : string) : str_in "" h = true.
Proof. by destruct h. Qed.



(** ** The singleton *)

Section Singleton.

Lemma configure_readable items l :
  NoDup items.*1 ->
  Forall (fun kv => exists config,
            read_config_values kv.1 kv.2 = Ok config) items ->
  (configure items l).1 = Ok tt
  /\ loader_manifests (configure items l).2 = loader_manifests l
  /\ loader_static_urls (configure items l).2 = loader_static_urls l
  /\ forall k,
       loader_configs (configure items l).2 !! k
       = match dict_get k items with
         | Some v =>
             match read_config_values k v with
             | Ok config => Some config
             | _ => None
             end
         | None => loader_configs l !! k
         end.
Proof.
  revert l. induction items as [|[k1 v1] items IH]; intros l Hnd Hall.
  - done.
  - apply NoDup_cons in Hnd as [Hfresh Hnd].
    apply Forall_cons in Hall as [[c1 Hc1] Hall]. simpl in Hc1.
    cbn [configure]. rewrite Hc1.
    destruct (IH (register k1 c1 l) Hnd Hall) as (Hok & Hm & Hu & Hconfigs).
    repeat split; try done. intros k. rewrite Hconfigs. cbn [dict_get].
    destruct (decide (k = k1)) as [->|Hne].
    + rewrite (dict_get_None k1 items) by done. rewrite Hc1. simpl.
      apply lookup_insert_eq.
    + destruct (dict_get k items); [done |]. simpl.
      by rewrite lookup_insert_ne.
Qed.

Lemma configure_stops before k v rest l e :
  (configure before l).1 = Ok tt ->
  read_config_values k v = Raise e ->
  configure (before ++ (k, v) :: rest) l = (Raise e, (configure before l).2).
Proof.
  revert l. induction before as [|[k1 v1] before IH]; intros l Hok Hbad.
  - simpl. by rewrite Hbad.
  - cbn [configure app] in *.
    destruct (read_config_values k1 v1); [by apply IH | done | done].
Qed.

Lemma instance_has l p :
  _instance p = Some l -> DjangoViteAssetLoader_instance p = (Ok l, p).
Proof. intros Hl. unfold DjangoViteAssetLoader_instance. by rewrite Hl. Qed.

(** After a call of [instance] the class has an instance, and a further
    call returns it. *)
Lemma instance_again p :
  exists l,
    _instance (DjangoViteAssetLoader_instance p).2 = Some l
    /\ DjangoViteAssetLoader_instance (DjangoViteAssetLoader_instance p).2
       = (Ok l, (DjangoViteAssetLoader_instance p).2).
Proof.
  assert (exists l, _instance (DjangoViteAssetLoader_instance p).2 = Some l)
    as [l Hl].
  { unfold DjangoViteAssetLoader_instance.
    destruct (_instance p) as [l|] eqn:Hl; simpl; eauto. }
  exists l. split; [done |]. by apply instance_has.
Qed.

End Singleton.

(** X20.  When the class has no instance yet and every value of the
    setting [DJANGO_VITE] is a configuration object or a dictionary that
    the configuration class accepts, [instance] returns a loader in which
    each key of the setting has its configuration, the object itself or
    the one built from the dictionary, and no other key has one; both
    caches of the loader are empty, and the loader is kept as the
    instance of the class. *)
Theorem instance_registers_DJANGO_VITE (p : process)
    (items : dict config_values) :
  _instance p = None ->
  DJANGO_VITE (proc_vite p) = Some items ->
  NoDup items.*1 ->
  Forall (fun kv => exists config,
            read_config_values kv.1 kv.2 = Ok config) items ->
  exists l,
    DjangoViteAssetLoader_instance p = (Ok l, set_instance l p)
    /\ (forall k,
          loader_configs l !! k
          = match dict_get k items with
            | Some (ConfigObject config) => Some config
            | Some (ConfigDict kw) =>
                match DjangoViteConfig_call kw with
                | Ok config => Some config
                | _ => None
                end
            | _ => None
            end)
    /\ loader_manifests l = ∅
    /\ loader_static_urls l = ∅.
Proof.
  intros Hnone Hitems Hnd Hall.
  destruct (configure_readable items new_loader Hnd Hall)
    as (Hok & Hm & Hu & Hconfigs).
  exists (configure items new_loader).2. split.
  { unfold DjangoViteAssetLoader_instance. rewrite Hnone, Hitems. cbv zeta.
    by rewrite Hok. }
  split; [| done]. intros k. rewrite Hconfigs.
  destruct (dict_get k items) as [v|] eqn:Hk; [| done].
  by destruct v as [config|kw|].
Qed.

Lemma instance_registers_DJANGO_VITE_witness :
  exists l,
    DjangoViteAssetLoader_instance (import_with (with_DJANGO_VITE two_configs))
    = (Ok l, set_instance l (import_with (with_DJANGO_VITE two_configs)))
    /\ loader_configs l !! "default" = Some dev_config
    /\ loader_configs l !! "admin"
       = Some (DjangoViteConfig_new (StrPath "assets"))
    /\ loader_configs l !! "other" = None.
Proof.
  destruct (instance_registers_DJANGO_VITE
              (import_with (with_DJANGO_VITE two_configs)) two_configs)
    as (l & Hrun & Hconfigs & _); [done | done | | |].
  - apply (bool_decide_unpack _). by vm_compute.
  - repeat constructor; simpl; eauto.
  - exists l. split; [exact Hrun |]. by rewrite !Hconfigs.
Defined.

(** X21.  When the class has no instance yet and a value of the setting
    [DJANGO_VITE] cannot be read, after values that can, [instance] raises
    the exception of that value: the [RuntimeError] that names the key
    when the value is neither a configuration nor a dictionary.  The
    loader, holding the configurations of the keys before that one and no
    others, stays the instance of the class, and the next call of
    [instance] returns it without raising. *)
Theorem instance_failure_keeps_partial_loader (p : process)
    (items before rest : dict config_values) (k : string) (v : config_values)
    (e : exn) :
  _instance p = None ->
  DJANGO_VITE (proc_vite p) = Some items ->
  items = before ++ (k, v) :: rest ->
  NoDup before.*1 ->
  Forall (fun kv => exists config,
            read_config_values kv.1 kv.2 = Ok config) before ->
  read_config_values k v = Raise e ->
  exists l,
    DjangoViteAssetLoader_instance p = (Raise e, set_instance l p)
    /\ (forall k',
          loader_configs l !! k'
          = match dict_get k' before with
            | Some v' =>
                match read_config_values k' v' with
                | Ok config => Some config
                | _ => None
                end
            | None => None
            end)
    /\ DjangoViteAssetLoader_instance (set_instance l p)
       = (Ok l, set_instance l p)
    /\ (v = ConfigOther ->
        e = RuntimeError ("Cannot read configuration for key " +:+ squote
                            +:+ k +:+ squote)).
Proof.
  intros Hnone Hitems -> Hnd Hall Hbad.
  destruct (configure_readable before new_loader Hnd Hall)
    as (Hok & _ & _ & Hconfigs).
  exists (configure before new_loader).2. split; [| split; [| split]].
  - unfold DjangoViteAssetLoader_instance. rewrite Hnone, Hitems. cbv zeta.
    by rewrite (configure_stops before k v rest new_loader e Hok Hbad).
  - intros k'. rewrite Hconfigs. by destruct (dict_get k' before).
  - by apply instance_has.
  - intros ->. simpl in Hbad. by injection Hbad as <-.
Qed.

Lemma instance_failure_keeps_partial_loader_witness :
  exists l,
    DjangoViteAssetLoader_instance
      (import_with (with_DJANGO_VITE broken_configs))
    = (Raise (RuntimeError ("Cannot read configuration for key " +:+ squote
                              +:+ "broken" +:+ squote)),
       set_instance l (import_with (with_DJANGO_VITE broken_configs)))
    /\ loader_configs l !! "default" = Some dev_config
    /\ loader_configs l !! "admin" = None
    /\ DjangoViteAssetLoader_instance
         (set_instance l (import_with (with_DJANGO_VITE broken_configs)))
       = (Ok l,
          set_instance l (import_with (with_DJANGO_VITE broken_configs))).
Proof.
  destruct (instance_failure_keeps_partial_loader
              (import_with (with_DJANGO_VITE broken_configs)) broken_configs
              [("default", ConfigObject dev_config)]
              [("admin", ConfigDict (assets_only (StrPath "assets")))]
              "broken" ConfigOther
              (RuntimeError ("Cannot read configuration for key " +:+ squote
                               +:+ "broken" +:+ squote)))
    as (l & Hrun & Hconfigs & Hagain & _); [done | done | done | | | done |].
  - apply (bool_decide_unpack _). by vm_compute.
  - repeat constructor; simpl; eauto.
  - exists l. split; [exact Hrun |]. by rewrite !Hconfigs.
Defined.

(** X22.  When the class has no instance yet and the setting
    [DJANGO_VITE] is not defined, [instance] registers one configuration,
    under the name default, built from the older settings: the assets
    path of the settings, and for every other field the setting when it
    is defined and the default of the class when it is not.  When the
    assets path is not defined either, [instance] raises a [TypeError]
    and leaves as the instance a loader without any configuration, so
    that a template tag called afterwards raises the [RuntimeError] of a
    configuration that is not registered. *)
Theorem instance_without_DJANGO_VITE `{Host} (p : process) :
  _instance p = None ->
  DJANGO_VITE (proc_vite p) = None ->
  match DJANGO_VITE_ASSETS_PATH (proc_vite p) with
  | Some assets =>
      exists config l,
        DjangoViteAssetLoader_instance p = (Ok l, set_instance l p)
        /\ loader_configs l = {[ "default" := config ]}
        /\ loader_manifests l = ∅
        /\ loader_static_urls l = ∅
        /\ assets_path config = assets
        /\ dev_mode config
           = default false (DJANGO_VITE_DEV_MODE (proc_vite p))
        /\ dev_server_protocol config
           = default "http" (DJANGO_VITE_DEV_SERVER_PROTOCOL (proc_vite p))
        /\ dev_server_host config
           = default "localhost" (DJANGO_VITE_DEV_SERVER_HOST (proc_vite p))
        /\ dev_server_port config
           = default 3000%Z (DJANGO_VITE_DEV_SERVER_PORT (proc_vite p))
        /\ ws_client_url config
           = default "@vite/client" (DJANGO_VITE_WS_CLIENT_URL (proc_vite p))
        /\ static_url_prefix config
           = default "" (DJANGO_VITE_STATIC_URL_PREFIX (proc_vite p))
        /\ legacy_polyfills_motif config
           = default "legacy-polyfills"
               (DJANGO_VITE_LEGACY_POLYFILLS_MOTIF (proc_vite p))
        /\ manifest_path config
           = default (StrPath "") (DJANGO_VITE_MANIFEST_PATH (proc_vite p))
  | None =>
      exists msg,
        DjangoViteAssetLoader_instance p
        = (Raise (TypeError msg), set_instance new_loader p)
        /\ forall path,
             (vite_asset_url path "default" (set_instance new_loader p)).1
             = Raise (RuntimeError ("Cannot find " +:+ dquote +:+ "default"
                                      +:+ dquote +:+ " configuration"))
  end.
Proof.
  intros Hnone Hvite. unfold DjangoViteAssetLoader_instance.
  rewrite Hnone, Hvite. cbv zeta.
  unfold DjangoViteConfig_call, legacy_kwargs. cbn [kw_other kw_assets_path].
  destruct (DJANGO_VITE_ASSETS_PATH (proc_vite p)) as [assets|].
  - eexists _, _. cbn. repeat split.
  - eexists. split; [done |]. intros path.
    unfold vite_asset_url, on_instance.
    rewrite (instance_has new_loader) by done. cbn [fst].
    unfold generate_vite_asset_url.
    by rewrite (bind_Raise _ _ _
                  (RuntimeError ("Cannot find " +:+ dquote +:+ "default"
                                   +:+ dquote +:+ " configuration"))
                  (world_of (set_instance new_loader p) new_loader)).
Qed.

Lemma instance_without_DJANGO_VITE_witness :
  (exists l,
     DjangoViteAssetLoader_instance
       (import_with (older_settings (Some (StrPath "assets")) (Some true)))
     = (Ok l,
        set_instance l
          (import_with (older_settings (Some (StrPath "assets"))
                          (Some true))))
     /\ loader_configs l = {[ "default" := str_assets_config ]})
  /\ exists msg,
       DjangoViteAssetLoader_instance
         (import_with (older_settings None (Some true)))
       = (Raise (TypeError msg),
          set_instance new_loader
            (import_with (older_settings None (Some true))))
       /\ forall path,
            (vite_asset_url (H:=plain_host) path "default"
               (set_instance new_loader
                  (import_with (older_settings None (Some true))))).1
            = Raise (RuntimeError ("Cannot find " +:+ dquote +:+ "default"
                                     +:+ dquote +:+ " configuration")).
Proof.
  split.
  - destruct (instance_without_DJANGO_VITE (H:=plain_host)
                (import_with (older_settings (Some (StrPath "assets"))
                                (Some true))) eq_refl eq_refl)
      as (config & l & Hrun & Hconfigs & _ & _ & Hfields).
    exists l. split; [exact Hrun |]. rewrite Hconfigs. f_equal.
    destruct config. simpl in Hfields.
    destruct Hfields as (-> & -> & -> & -> & -> & -> & -> & -> & ->). done.
  - apply (instance_without_DJANGO_VITE (H:=plain_host)
             (import_with (older_settings None (Some true)))
             eq_refl eq_refl).
Defined.

(** ** The template tags *)

Section Tags.
Context `{Host}.

(** What [instance] returns is the instance of the class afterwards. *)
Lemma instance_returns_the_instance p l p1 :
  DjangoViteAssetLoader_instance p = (Ok l, p1) -> _instance p1 = Some l.
Proof.
  unfold DjangoViteAssetLoader_instance.
  destruct (_instance p) as [l0|] eqn:Hl.
  - by intros [= <- <-].
  - cbv zeta. intros [= Hr <-]. simpl. f_equal.
    by destruct (_ : outcome unit * loader).1; simplify_eq.
Qed.

(** A method that leaves the process of the loader as it is leaves the
    process of the class as it is. *)
Lemma process_of_world_of p l :
  _instance p = Some l -> process_of p (world_of p l) = p.
Proof. intros Hl. destruct p, l. simpl in *. by rewrite Hl. Qed.

Lemma generate_vite_asset_url_warm path key w config static_url manifest
    entry :
  _configs w !! key = Some config ->
  dev_mode config = false ->
  _static_urls w !! key = Some static_url ->
  _manifests w !! key = Some manifest ->
  dict_get path manifest = Some entry ->
  generate_vite_asset_url path key w
  = (Ok (urljoin static_url (file entry)), w).
Proof.
  intros Hc Hprod Hu Hm Hentry. unfold generate_vite_asset_url.
  rewrite (bind_Ok _ _ w config w) by by rewrite _get_config_run, Hc.
  rewrite (bind_Ok _ _ _ _ _ (_get_static_url_hit _ _ _ Hu)), Hprod.
  rewrite (bind_Ok _ _ _ _ _ (_get_manifest_hit _ _ _ Hm)).
  by rewrite Hentry.
Qed.

Lemma generate_vite_asset_url_cold path key w config c location items
    entry :
  _configs w !! key = Some config ->
  dev_mode config = false ->
  _static_urls w !! key = None ->
  _manifests w !! key = None ->
  last_char (urljoin (STATIC_URL (django_settings w))
               (static_url_prefix config)) = Some c ->
  get_computed_manifest_path (django_settings w) config = Ok location ->
  disk w !! fspath location = Some (ManifestJson items) ->
  dict_get path (dict_update [] items) = Some entry ->
  generate_vite_asset_url path key w
  = (Ok (urljoin
           (with_trailing_slash
              (urljoin (STATIC_URL (django_settings w))
                 (static_url_prefix config)) c)
           (file entry)),
     set_manifests <[key := dict_update [] items]>
       (log_open (fspath location)
          (set_static_urls
             <[key := with_trailing_slash
                        (urljoin (STATIC_URL (django_settings w))
                           (static_url_prefix config)) c]> w))).
Proof.
  intros Hc Hprod Hu Hm Hlast Hloc Hdisk Hentry.
  unfold generate_vite_asset_url.
  rewrite (bind_Ok _ _ w config w) by by rewrite _get_config_run, Hc.
  erewrite bind_Ok;
    [| rewrite _get_static_url_miss by done; rewrite Hc; cbv zeta;
       by rewrite Hlast].
  rewrite Hprod.
  erewrite bind_Ok;
    [| rewrite _get_manifest_miss by done; rewrite _parse_manifest_run;
       simpl; by rewrite Hc, Hloc, Hdisk].
  by rewrite Hentry.
Qed.

End Tags.

(** X23.  The tag [vite_hmr_client] goes through a class method that asks
    for the instance twice, once for the configuration and once for the
    static URL.  It behaves as the method called once on the instance:
    the same result, raised or returned, and the same process
    afterwards, also when [instance] itself raises. *)
Theorem vite_hmr_client_asks_once `{Host} (config : string) (p : process) :
  vite_hmr_client config p = on_instance (generate_vite_ws_client config) p.
Proof.
  unfold vite_hmr_client, DjangoViteAssetLoader_generate_vite_ws_client.
  unfold on_instance at 1 3.
  destruct (DjangoViteAssetLoader_instance p) as [[l|e|] p1] eqn:Hi;
    [| done | done].
  pose proof (instance_returns_the_instance _ _ _ Hi) as Hl.
  unfold generate_vite_ws_client. rewrite _get_config_run.
  destruct (_configs (world_of p1 l) !! config) as [c|] eqn:Hc.
  - rewrite (bind_Ok _ _ (world_of p1 l) c (world_of p1 l))
      by by rewrite _get_config_run, Hc.
    cbn [fst snd]. rewrite (process_of_world_of _ _ Hl).
    unfold on_instance. rewrite (instance_has _ _ Hl).
    unfold bind, lift, ret.
    destruct (_get_static_url config (world_of p1 l)) as [[u| |] w1];
      cbn [fst snd]; try done.
    by destruct (dev_mode c).
  - rewrite (bind_Raise _ _ (world_of p1 l)
               (RuntimeError ("Cannot find " +:+ dquote +:+ config
                                +:+ dquote +:+ " configuration"))
               (world_of p1 l)) by by rewrite _get_config_run, Hc.
    done.
Qed.

(** X24.  The first rendering after the import.  When every value of
    [DJANGO_VITE] can be read, the configuration asked for is in
    production mode, its joined static URL is not empty and the file at
    its manifest path holds a manifest with the path, the tag
    [vite_asset_url] called on the process as the import finds it returns
    the file of the entry joined to the static URL with its trailing
    slash, after opening the manifest and nothing else; the same tag
    called again returns the same URL and leaves the process as it is,
    without opening a file. *)
Theorem vite_asset_url_first_render `{Host} (s : settings)
    (vs : vite_settings) (files : gmap string disk_file)
    (items : dict config_values) (key path : string) (v : config_values)
    (config : DjangoViteConfig) (c : ascii) (location : pathlike)
    (manifest : list (string * DjangoViteManifest))
    (entry : DjangoViteManifest) :
  DJANGO_VITE vs = Some items ->
  NoDup items.*1 ->
  Forall (fun kv => exists config,
            read_config_values kv.1 kv.2 = Ok config) items ->
  dict_get key items = Some v ->
  read_config_values key v = Ok config ->
  dev_mode config = false ->
  last_char (urljoin (STATIC_URL s) (static_url_prefix config)) = Some c ->
  get_computed_manifest_path s config = Ok location ->
  files !! fspath location = Some (ManifestJson manifest) ->
  dict_get path (dict_update [] manifest) = Some entry ->
  exists url p1,
    url = urljoin (with_trailing_slash
                     (urljoin (STATIC_URL s) (static_url_prefix config)) c)
            (file entry)
    /\ vite_asset_url path key (at_import s vs files) = (Ok url, p1)
    /\ proc_opened p1 = [fspath location]
    /\ proc_disk p1 = files
    /\ vite_asset_url path key p1 = (Ok url, p1).
Proof.
  intros Hitems Hnd Hall Hv Hread Hprod Hlast Hloc Hfile Hentry.
  destruct (configure_readable items new_loader Hnd Hall)
    as (Hok & Hm & Hu & Hconfigs).
  set (l := (configure items new_loader).2) in *.
  set (p := at_import s vs files).
  assert (DjangoViteAssetLoader_instance p = (Ok l, set_instance l p))
    as Hinst.
  { unfold DjangoViteAssetLoader_instance. simpl. rewrite Hitems. cbv zeta.
    by rewrite Hok. }
  assert (loader_configs l !! key = Some config) as Hc
    by by rewrite Hconfigs, Hv, Hread.
  pose proof (generate_vite_asset_url_cold path key
                (world_of (set_instance l p) l) config c location manifest
                entry Hc Hprod) as Hcold.
  simpl in Hcold. rewrite Hu, Hm in Hcold.
  specialize (Hcold (lookup_empty _) (lookup_empty _) Hlast Hloc Hfile
                Hentry).
  eexists _, _. split; [done |]. split.
  { unfold vite_asset_url, on_instance. rewrite Hinst, Hcold. done. }
  split; [done |]. split; [done |].
  unfold vite_asset_url, on_instance. erewrite instance_has by done.
  erewrite generate_vite_asset_url_warm; [done | exact Hc | exact Hprod | ..].
  - simpl. apply lookup_insert_eq.
  - simpl. apply lookup_insert_eq.
  - exact Hentry.
Qed.

Lemma vite_asset_url_first_render_witness :
  exists p1,
    vite_asset_url (H:=plain_host) "a" "admin"
      (import_with (with_DJANGO_VITE two_configs))
    = (Ok "/static/a.123.js", p1)
    /\ proc_opened p1 = ["/srv/static/manifest.json"]
    /\ vite_asset_url (H:=plain_host) "a" "admin" p1
       = (Ok "/static/a.123.js", p1).
Proof.
  destruct (vite_asset_url_first_render (H:=plain_host)
              {| STATIC_URL := "/static/"; STATIC_ROOT := Some "/srv/static" |}
              (with_DJANGO_VITE two_configs)
              {[ "/srv/static/manifest.json" := ManifestJson manifest_ab ]}
              two_configs "admin" "a"
              (ConfigDict (assets_only (StrPath "assets")))
              (DjangoViteConfig_new (StrPath "assets")) "/"%char
              (PurePath "/srv/static/manifest.json") manifest_ab entry_a)
    as (url & p1 & -> & Hfirst & Hopened & _ & Hagain);
    [done | | | done | done | done | by vm_compute | by vm_compute
     | by vm_compute | by vm_compute |].
  - apply (bool_decide_unpack _). by vm_compute.
  - repeat constructor; simpl; eauto.
  - exists p1. split; [exact Hfirst |]. split; [exact Hopened |].
    exact Hagain.
Defined.
